(** * Document statistics of ghostwriter (src/documentstatistics.cpp)

    A shallow embedding of [DocumentStatistics] and of its private class:
    the word tokenizer, the sentence counter, the readability calculators
    and the slots that recompute and publish the metrics.

    Conventions.
    - A C++ [int] is a [Z].  The counters of the tokenizer are bounded by
      the length of the scanned text (lemma [countWords_bounded]) and the
      totals of a pass by the character count of the document (lemma
      [visited_bounded]); both are [int]s in Qt, so no counter wraps.
    - A [QChar] is a UTF-16 code unit, a [QString] the list of its units.
    - Qt's character classes ([QChar::isLetterOrNumber], [QChar::isSpace])
      and the sentence boundary finder are not part of this repository:
      they are variables of the section that holds the code.
    - [qreal] is [double], IEEE-754 binary64 (Qt's default), and [float]
      is binary32, each operation rounded in its own format; both are
      taken from the Standard Library's [SpecFloat]. *)

From Stdlib Require Import ZArith QArith Qround List Lia Bool Ascii String SpecFloat.
From stdpp Require Import base list numbers.

Open Scope Z_scope.

(** ** Qt's strings *)

Definition QChar := N.
Definition QString := list QChar.

(** [QString::fromLatin1]: every byte becomes the code unit of the same
    value. *)
Definition fromLatin1 (s : string) : QString :=
  map N_of_ascii (list_ascii_of_string s).

(** [QString::length] is an [int]. *)
Definition qlength (s : QString) : Z := Z.of_nat (length s).

(** ** The word tokenizer *)

(** The locals and the three reference parameters of
    [DocumentStatisticsPrivate::countWords]. *)
Module WordScan.
Record t := mk {
  inWord : bool;
  separatorCount : Z;
  wordLen : Z;
  words : Z;
  lixLongWords : Z;
  alphaNumericCharacters : Z
}.

(** The state at the top of the [for] loop. *)
Definition init : t := mk false 0 0 0 0 0.
End WordScan.

(** ** Floating point: [qreal], [float] and [qCeil] *)

Module Real.

(** [qreal] is [double]: IEEE-754 binary64, round to nearest even. *)
Definition prec : Z := 53.
Definition emax : Z := 1024.

(** [(qreal) n] for an [int] [n]: exact, since |n| < 2^53. *)
Definition ofInt (n : Z) : spec_float := binary_normalize prec emax n 0 false.

Definition add : spec_float -> spec_float -> spec_float := SFadd prec emax.
Definition sub : spec_float -> spec_float -> spec_float := SFsub prec emax.
Definition mul : spec_float -> spec_float -> spec_float := SFmul prec emax.
Definition div : spec_float -> spec_float -> spec_float := SFdiv prec emax.

(** A decimal literal [n / 10^k] is the binary64 value nearest to it,
    which is what the correctly rounded quotient of the two (exactly
    represented) integers gives. *)
Definition literal (n : Z) (k : Z) : spec_float :=
  div (ofInt n) (ofInt (10 ^ k)).

(** [std::ceil] on a finite value, as an integer; [None] on an infinity
    or a NaN. *)
Definition ceil (v : spec_float) : option Z :=
  match v with
  | S754_zero _ => Some 0
  | S754_finite s m e =>
      let n := cond_Zopp s (Zpos m) in
      Some (if 0 <=? e then n * 2 ^ e else - ((- n) / 2 ^ (- e)))
  | S754_infinity _ | S754_nan => None
  end.

Definition INT_MIN : Z := - 2 ^ 31.
Definition INT_MAX : Z := 2 ^ 31 - 1.

(** [qCeil(v)] is [int(std::ceil(v))].  The conversion of a value that
    no [int] holds is undefined in C++; the model answers what the
    x86-64 conversion instruction does, the "integer indefinite" value
    [INT_MIN]. *)
Definition qCeil (v : spec_float) : Z :=
  match ceil v with
  | Some z => if (INT_MIN <=? z) && (z <=? INT_MAX) then z else INT_MIN
  | None => INT_MIN
  end.

End Real.

Module Single.

(** [float]: IEEE-754 binary32, operations rounded to binary32. *)
Definition prec : Z := 24.
Definition emax : Z := 128.

(** [(float) n] for an [int] [n]: rounded to nearest even. *)
Definition ofInt (n : Z) : spec_float := binary_normalize prec emax n 0 false.

Definition div : spec_float -> spec_float -> spec_float := SFdiv prec emax.

(** [(qreal) x] for a [float] [x]: exact. *)
Definition toReal (x : spec_float) : spec_float :=
  match x with
  | S754_finite s m e =>
      binary_normalize Real.prec Real.emax (cond_Zopp s (Zpos m)) e s
  | _ => x
  end.

End Single.

(** ** The readability calculators *)

(** C++ [/] on [int] truncates towards zero. *)
Definition calculatePageCount (words : Z) : Z := Z.quot words 250.

Definition calculateReadingTime (words : Z) : Z := Z.quot words 270.

(** The [qreal] expression that [calculateCLI] hands to [qCeil]. *)
Definition cliValue (characters words sentences : Z) : spec_float :=
  Real.sub
    (Real.sub
       (Real.mul (Real.literal 588 2)
          (Single.toReal (Single.div (Single.ofInt characters)
                                     (Single.ofInt words))))
       (Real.mul (Real.literal 296 1)
          (Real.div (Real.ofInt sentences) (Real.ofInt words))))
    (Real.literal 158 1).

Definition calculateCLI (characters words sentences : Z) : Z :=
  if (0 <? sentences) && (0 <? words) then
    let cli := Real.qCeil (cliValue characters words sentences) in
    if cli <? 0 then 0 else cli
  else 0.

(** The [qreal] expression that [calculateLIX] hands to [qCeil]. *)
Definition lixValue (totalWords longWords sentences : Z) : spec_float :=
  Real.add
    (Real.div (Real.ofInt totalWords) (Real.ofInt sentences))
    (Real.mul (Real.div (Real.ofInt longWords) (Real.ofInt totalWords))
              (Real.ofInt 100)).

Definition calculateLIX (totalWords longWords sentences : Z) : Z :=
  if (0 <? totalWords) && (0 <? sentences) then
    Real.qCeil (lixValue totalWords longWords sentences)
  else 0.

Definition calculateComplexWords (totalWords longWords : Z) : Z :=
  if 0 <? totalWords then
    Real.qCeil
      (Real.mul (Real.div (Real.ofInt longWords) (Real.ofInt totalWords))
                (Real.ofInt 100))
  else 0.

(** ** The document *)

(** Modelled from the spec: [TextBlockData], the per-paragraph cache entry
    (section 3, ParagraphStatistics), whose class is declared outside
    documentstatistics.cpp.  Only the four fields this file writes are
    kept. *)
Module TextBlockData.
Record t := mk {
  wordCount : Z;
  lixLongWordCount : Z;
  alphaNumericCharacterCount : Z;
  sentenceCount : Z
}.
End TextBlockData.

(** A paragraph of the document: its text and its user-data slot
    ([nullptr] is [None]). *)
Module Block.
Record t := mk {
  text : QString;
  userData : option TextBlockData.t
}.
End Block.

(** Modelled from the spec: [MarkdownDocument], declared outside
    documentstatistics.cpp, through the interface of section 6: the
    paragraphs in document order, the text and the cache slot of each,
    and the total character length.  It is a Qt text document: the list
    of its blocks. *)
Abbreviation MarkdownDocument := (list Block.t).

(** A [QTextBlock] is a handle: [Some i] is the [i]-th block of the
    document, [None] an invalid block.  Qt has two invalid blocks (the
    one after the last block and the one after an invalid block); they
    have no text and no user data, and a loop that meets the first one
    before its end block meets the second one a turn later, with no
    count changed in between: one [None] stands for both. *)
Definition QTextBlock := option nat.

Module Document.

(** A block takes its text and one paragraph separator. *)
Definition blockLength (b : Block.t) : Z := qlength (Block.text b) + 1.

(** [QTextDocument::characterCount]. *)
Definition characterCount (doc : MarkdownDocument) : Z :=
  fold_right (fun b n => blockLength b + n) 0 doc.

Definition firstBlock (doc : MarkdownDocument) : QTextBlock :=
  match doc with [] => None | _ :: _ => Some 0%nat end.

Definition lastBlock (doc : MarkdownDocument) : QTextBlock :=
  match doc with [] => None | _ :: _ => Some (length doc - 1)%nat end.

(** [QTextBlock::next]: the block after a valid block, an invalid block
    after the last one and after an invalid one. *)
Definition next (doc : MarkdownDocument) (block : QTextBlock) : QTextBlock :=
  match block with
  | Some i => if decide (S i < length doc)%nat then Some (S i) else None
  | None => None
  end.

Fixpoint findBlockFrom (i : nat) (bs : list Block.t) (pos : Z) : QTextBlock :=
  match bs with
  | [] => None
  | b :: bs' =>
      if pos <? blockLength b then Some i
      else findBlockFrom (S i) bs' (pos - blockLength b)
  end.

(** [QTextDocument::findBlock]: the block that holds the position
    [pos]; an invalid block when the document has no such position. *)
Definition findBlock (doc : MarkdownDocument) (pos : Z) : QTextBlock :=
  if pos <? 0 then None else findBlockFrom 0 doc pos.

(** The paragraph a handle stands for. *)
Definition paragraph (doc : MarkdownDocument) (block : QTextBlock)
    : option Block.t :=
  match block with
  | Some i => doc !! i
  | None => None
  end.

(** [QTextBlock::text]: empty for an invalid block. *)
Definition text (doc : MarkdownDocument) (block : QTextBlock) : QString :=
  match paragraph doc block with
  | Some b => Block.text b
  | None => []
  end.

(** [QTextBlock::userData]: [nullptr] for an invalid block. *)
Definition userData (doc : MarkdownDocument) (block : QTextBlock)
    : option TextBlockData.t :=
  match paragraph doc block with
  | Some b => Block.userData b
  | None => None
  end.

(** The slot of [block] holds [data] afterwards; nothing happens for an
    invalid block. *)
Definition setUserData (doc : MarkdownDocument) (block : QTextBlock)
    (data : TextBlockData.t) : MarkdownDocument :=
  match block with
  | Some i =>
      match doc !! i with
      | Some b => <[i := Block.mk (Block.text b) (Some data)]> doc
      | None => doc
      end
  | None => doc
  end.

End Document.

(** ** The private state and the signals *)

Module Stats.
(** The data members of [DocumentStatisticsPrivate]; [document] stands
    for the document the pointer leads to. *)
Record t := mk {
  document : MarkdownDocument;
  wordCount : Z;
  totalWordCount : Z;
  wordCharacterCount : Z;
  sentenceCount : Z;
  paragraphCount : Z;
  pageCount : Z;
  lixLongWordCount : Z;
  readTimeMinutes : Z
}.
End Stats.

(** The state the constructor of [DocumentStatistics] sets up. *)
Definition construct (document : MarkdownDocument) : Stats.t :=
  Stats.mk document 0 0 0 0 0 0 0 0.

(** The signals of [DocumentStatistics], each with the value it carries. *)
Inductive Signal :=
| wordCountChanged (value : Z)
| totalWordCountChanged (value : Z)
| characterCountChanged (value : Z)
| sentenceCountChanged (value : Z)
| paragraphCountChanged (value : Z)
| pageCountChanged (value : Z)
| complexWordsChanged (value : Z)
| readingTimeChanged (value : Z)
| lixReadingEaseChanged (value : Z)
| readabilityIndexChanged (value : Z).

(** ** A monad for the slots

    A slot reads and writes the private state and emits signals; it
    yields nothing ([None]) when one of its loops does not end. *)
Definition Slot (A : Type) : Type :=
  Stats.t -> option (A * Stats.t * list Signal).

Module Slot.

Definition ret {A} (a : A) : Slot A := fun d => Some (a, d, []).

Definition bind {A B} (m : Slot A) (k : A -> Slot B) : Slot B :=
  fun d =>
    match m d with
    | Some (a, d1, out1) =>
        match k a d1 with
        | Some (b, d2, out2) => Some (b, d2, out1 ++ out2)
        | None => None
        end
    | None => None
    end.

Definition get : Slot Stats.t := fun d => Some (d, d, []).

Definition put (d' : Stats.t) : Slot unit := fun _ => Some (tt, d', []).

Definition emit (s : Signal) : Slot unit := fun d => Some (tt, d, [s]).

Definition lift {A} (o : option A) : Slot A :=
  fun d => match o with Some a => Some (a, d, []) | None => None end.

End Slot.

#[global] Instance Slot_ret : MRet Slot := @Slot.ret.
#[global] Instance Slot_bind : MBind Slot := fun A B k m => Slot.bind m k.

(** ** The accessors of [DocumentStatistics] *)

Module DocumentStatistics.

Definition wordCount (d : Stats.t) : Z := Stats.wordCount d.

Definition characterCount (d : Stats.t) : Z :=
  Document.characterCount (Stats.document d) - 1.

Definition paragraphCount (d : Stats.t) : Z := Stats.paragraphCount d.

Definition sentenceCount (d : Stats.t) : Z := Stats.sentenceCount d.

Definition pageCount (d : Stats.t) : Z := Stats.pageCount d.

Definition readingTime (d : Stats.t) : Z := Stats.readTimeMinutes d.

End DocumentStatistics.

(** ** Character classes on ASCII

    The closed examples below run the tokenizer on ASCII text.  On
    U+0000..U+007F Qt's classes are: letters and digits for
    [isLetterOrNumber]; tab, line feed, vertical tab, form feed, carriage
    return and space for [isSpace].  Outside ASCII these two functions
    answer [false]; no example depends on that. *)
Definition asciiIsLetterOrNumber (c : QChar) : bool :=
  match c with
  | N0 => false
  | Npos p =>
      let z := Zpos p in
      ((48 <=? z) && (z <=? 57)) || ((65 <=? z) && (z <=? 90))
      || ((97 <=? z) && (z <=? 122))
  end.

Definition asciiIsSpace (c : QChar) : bool :=
  match c with
  | N0 => false
  | Npos p =>
      let z := Zpos p in
      ((9 <=? z) && (z <=? 13)) || (z =? 32)
  end.

(** ** Inputs of the closed examples *)

(** A boundary finder that takes a text as one sentence: it answers the
    end of the text, then -1. *)
Definition wholeTextFinder (t : QString) : list Z := [qlength t; -1].

(** Three paragraphs, the second one empty, none visited yet. *)
Definition exampleDocument : MarkdownDocument :=
  [Block.mk (fromLatin1 "The quick brown fox.") None;
   Block.mk [] None;
   Block.mk (fromLatin1 "It jumps.") None].

Definition exampleState : Stats.t := construct exampleDocument.

(** The same paragraphs after a whole-document pass, with its totals. *)
Definition visitedDocument : MarkdownDocument :=
  [Block.mk (fromLatin1 "The quick brown fox.")
     (Some (TextBlockData.mk 4 0 16 1));
   Block.mk [] (Some (TextBlockData.mk 0 0 0 0));
   Block.mk (fromLatin1 "It jumps.") (Some (TextBlockData.mk 2 0 7 1))].

Definition visitedState : Stats.t := Stats.mk visitedDocument 6 0 23 2 2 0 0 0.

(** Two blank paragraphs, none visited yet. *)
Definition blankDocument : MarkdownDocument :=
  [Block.mk (fromLatin1 "  ") None; Block.mk [] None].

Definition blankState : Stats.t := construct blankDocument.

(** ** What the specification says of the calculators and the signals *)

(** The LIX formula over the rationals: the ceiling of
    totalWords/sentences + 100*longWords/totalWords when there is a word
    and a sentence, 0 otherwise. *)
Definition lixExact (totalWords longWords sentences : Z) : Z :=
  if (0 <? totalWords) && (0 <? sentences) then
    Qceiling (inject_Z totalWords / inject_Z sentences
              + 100 * inject_Z longWords / inject_Z totalWords)%Q
  else 0.

(** The integers from 0 to [n]. *)
Definition upTo (n : nat) : list Z := map Z.of_nat (seq 0 (S n)).

(** [calculateLIX] is the exact LIX or one more, for every text of at
    most [n] words (long words and sentences at most the words). *)
Definition lixWithinOne (n : nat) : bool :=
  forallb (fun totalWords =>
    forallb (fun longWords =>
      forallb (fun sentences =>
        let lix := calculateLIX totalWords longWords sentences in
        let exact := lixExact totalWords longWords sentences in
        (exact <=? lix) && (lix <=? exact + 1))
        (upTo (Z.to_nat totalWords)))
      (upTo (Z.to_nat totalWords)))
    (upTo n).

(** The values a batch of signals publishes for one metric, in the order
    of emission. *)
Definition publishedWordCount (out : list Signal) : list Z :=
  omap (fun s => match s with wordCountChanged v => Some v | _ => None end) out.

Definition publishedCharacterCount (out : list Signal) : list Z :=
  omap (fun s => match s with characterCountChanged v => Some v | _ => None end)
       out.

Definition publishedParagraphCount (out : list Signal) : list Z :=
  omap (fun s => match s with paragraphCountChanged v => Some v | _ => None end)
       out.

Definition sumZ (l : list Z) : Z := fold_right Z.add 0 l.

(** The word count the cache holds for a paragraph; 0 without an entry. *)
Definition cachedWordCount (b : Block.t) : Z :=
  match Block.userData b with
  | Some data => TextBlockData.wordCount data
  | None => 0
  end.

(** * The code, over Qt's character classes and boundary finder *)

Section Statistics.

(** [QChar::isLetterOrNumber] and [QChar::isSpace]. *)
Variable isLetterOrNumber : QChar -> bool.
Variable isSpace : QChar -> bool.

(** The sentence boundary finder.  [sentenceBoundaries t] lists what the
    successive calls of [toNextBoundary()] answer for a
    [QTextBoundaryFinder(Sentence, t)] set at position 0: the boundary
    positions, then -1 once there is none left. *)
Variable sentenceBoundaries : QString -> list Z.

Import WordScan.

(** One turn of the [for] loop of [countWords], on the character
    [c = text[i]]. *)
Definition scanChar (s : WordScan.t) (c : QChar) : WordScan.t :=
  if isLetterOrNumber c then
    mk true 0 (wordLen s + 1)
       (words s) (lixLongWords s) (alphaNumericCharacters s + 1)
  else if isSpace c && inWord s then
    let wl := if 0 <? separatorCount s then wordLen s - 1 else wordLen s in
    let an := if 0 <? separatorCount s
              then alphaNumericCharacters s - 1
              else alphaNumericCharacters s in
    mk false 0 0
       (words s + 1)
       (if 6 <? wl then lixLongWords s + 1 else lixLongWords s)
       an
  else
    let sc := separatorCount s + 1 in
    if inWord s then
      if 1 <? sc then
        let wl := wordLen s - 1 in
        mk false 0 0
           (words s + 1)
           (if 6 <? wl then lixLongWords s + 1 else lixLongWords s)
           (alphaNumericCharacters s - 1)
      else
        mk true sc (wordLen s + 1)
           (words s) (lixLongWords s) (alphaNumericCharacters s + 1)
    else
      mk false sc (wordLen s)
         (words s) (lixLongWords s) (alphaNumericCharacters s).

(** The whole [for] loop, from the state [s]. *)
Definition scanFrom (s : WordScan.t) (text : QString) : WordScan.t :=
  fold_left scanChar text s.

Definition scan (text : QString) : WordScan.t := scanFrom init text.

(** The [if (inWord)] block after the loop. *)
Definition closeLastWord (s : WordScan.t) : WordScan.t :=
  if inWord s then
    let wl := if 0 <? separatorCount s then wordLen s - 1 else wordLen s in
    let an := if 0 <? separatorCount s
              then alphaNumericCharacters s - 1
              else alphaNumericCharacters s in
    mk true (separatorCount s) wl
       (words s + 1)
       (if 6 <? wl then lixLongWords s + 1 else lixLongWords s)
       an
  else s.

(** [countWords(text, words, lixLongWords, alphaNumericCharacters)]:
    the three outputs, in the order of the parameters. *)
Definition countWords (text : QString) : Z * Z * Z :=
  let s := closeLastWord (scan text) in
  (words s, lixLongWords s, alphaNumericCharacters s).

(** ** The sentence counter *)

Fixpoint dropSpaces (s : QString) : QString :=
  match s with
  | [] => []
  | c :: s' => if isSpace c then dropSpaces s' else s
  end.

(** [QString::trimmed]: the text without its leading and trailing
    white space. *)
Definition trimmed (s : QString) : QString :=
  rev (dropSpaces (rev (dropSpaces s))).

(** [s[i]]; [None] when [i] is outside the string, which no caller may
    ask for. *)
Definition charAt (s : QString) (i : Z) : option QChar :=
  if i <? 0 then None else s !! Z.to_nat i.

(** The [while (nextSentencePos >= 0)] loop of [countSentences], with
    the answers the finder has still to give.  [None]: the finder never
    answers -1 (the loop would not end), or [trimmedText[oldPos]] is
    read outside the text. *)
Fixpoint sentenceLoop (trimmedText : QString) (answers : list Z)
    (nextSentencePos count : Z) : option Z :=
  if nextSentencePos <? 0 then Some count
  else
    match answers with
    | [] => None
    | answer :: answers' =>
        let oldPos := nextSentencePos in
        if 1 <? answer - oldPos then
          sentenceLoop trimmedText answers' answer (count + 1)
        else if 0 <? answer - oldPos then
          match charAt trimmedText oldPos with
          | Some c =>
              sentenceLoop trimmedText answers' answer
                (if isSpace c then count else count + 1)
          | None => None
          end
        else sentenceLoop trimmedText answers' answer count
    end.

Definition countSentences (text : QString) : option Z :=
  let trimmedText := trimmed text in
  if 0 <? qlength trimmedText then
    sentenceLoop trimmedText (sentenceBoundaries trimmedText) 0 0
  else Some 0.

(** ** The aggregation engine *)

Import Stats.

(** The value [if (block.text().trimmed().length() > 0)] tests. *)
Definition nonBlank (text : QString) : bool :=
  0 <? qlength (trimmed text).

Definition updateStatistics : Slot unit :=
  d ← Slot.get;
  let pageCount' := calculatePageCount (wordCount d) in
  let readTimeMinutes' := calculateReadingTime (wordCount d) in
  Slot.put (mk (document d) (wordCount d) (totalWordCount d)
               (wordCharacterCount d) (sentenceCount d) (paragraphCount d)
               pageCount' (lixLongWordCount d) readTimeMinutes');;
  Slot.emit (wordCountChanged (wordCount d));;
  Slot.emit (totalWordCountChanged (wordCount d));;
  Slot.emit (characterCountChanged (Document.characterCount (document d) - 1));;
  Slot.emit (sentenceCountChanged (sentenceCount d));;
  Slot.emit (paragraphCountChanged (paragraphCount d));;
  Slot.emit (pageCountChanged pageCount');;
  Slot.emit (complexWordsChanged
               (calculateComplexWords (wordCount d) (lixLongWordCount d)));;
  Slot.emit (readingTimeChanged readTimeMinutes');;
  Slot.emit (lixReadingEaseChanged
               (calculateLIX (wordCount d) (lixLongWordCount d) (sentenceCount d)));;
  Slot.emit (readabilityIndexChanged
               (calculateCLI (wordCharacterCount d) (wordCount d) (sentenceCount d))).

Definition updateBlockStatistics (block : QTextBlock) : Slot unit :=
  d ← Slot.get;
  let text := Document.text (document d) block in
  (* blockData is the entry of the block, a new one if it had none *)
  let '(words, lixLongWords, alphaNumericCharacters) :=
    countWords text in
  sentences ← Slot.lift (countSentences text);
  let blockData :=
    TextBlockData.mk words lixLongWords alphaNumericCharacters sentences in
  Slot.put (mk (Document.setUserData (document d) block blockData)
               (wordCount d + words)
               (totalWordCount d)
               (wordCharacterCount d + alphaNumericCharacters)
               (sentenceCount d + sentences)
               (if nonBlank text then paragraphCount d + 1 else paragraphCount d)
               (pageCount d)
               (lixLongWordCount d + lixLongWords)
               (readTimeMinutes d)).

(** The [while (block != endBlock)] loop of [onTextChanged].  It visits
    a block at most once, so [fuel] turns are enough when there are more
    of them than blocks. *)
Fixpoint changedLoop (fuel : nat) (block endBlock : QTextBlock) : Slot unit :=
  if decide (block = endBlock) then mret tt
  else
    match fuel with
    | O => Slot.lift None
    | S fuel' =>
        d ← Slot.get;
        let block' := Document.next (document d) block in
        updateBlockStatistics block';;
        changedLoop fuel' block' endBlock
    end.

Definition onTextChanged (position charsRemoved charsAdded : Z) : Slot unit :=
  d ← Slot.get;
  Slot.put (mk (document d) 0 (totalWordCount d) 0 0 0 0 0 0);;
  let startBlock := Document.firstBlock (document d) in
  let endBlock := Document.lastBlock (document d) in
  updateBlockStatistics startBlock;;
  changedLoop (S (length (document d))) startBlock endBlock;;
  updateStatistics.

(** The slot connected to [MarkdownDocument::cleared]. *)
Definition onCleared : Slot unit :=
  d ← Slot.get;
  Slot.put (mk (document d) 0 (totalWordCount d) 0 0 0 0 0 0);;
  updateStatistics.

Definition onTextDeselected : Slot unit := updateStatistics.

(** The [while (block != end)] loop of [onTextSelected]: the number of
    selected paragraphs, from [count].  [None] when [end] is never
    met. *)
Fixpoint selectedLoop (doc : MarkdownDocument) (fuel : nat)
    (block endBlock : QTextBlock) (count : Z) : option Z :=
  if decide (block = endBlock) then Some count
  else
    match fuel with
    | O => None
    | S fuel' =>
        let count' :=
          match Document.userData doc block with
          | Some _ =>
              if nonBlank (Document.text doc block) then count + 1 else count
          | None => count
          end in
        selectedLoop doc fuel' (Document.next doc block) endBlock count'
    end.

Definition onTextSelected (selectedText : QString)
    (selectionStart selectionEnd : Z) : Slot unit :=
  let '(selectionWordCount, selectionLixLongWordCount,
        selectionWordCharacterCount) :=
    countWords selectedText in
  selectionSentenceCount ←
    Slot.lift (countSentences selectedText);
  d ← Slot.get;
  let block := Document.findBlock (document d) selectionStart in
  let endBlock :=
    Document.next (document d) (Document.findBlock (document d) selectionEnd) in
  selectedParagraphCount ←
    Slot.lift (selectedLoop (document d) (S (length (document d)))
                            block endBlock 0);
  Slot.emit (wordCountChanged selectionWordCount);;
  Slot.emit (characterCountChanged (qlength selectedText));;
  Slot.emit (sentenceCountChanged selectionSentenceCount);;
  Slot.emit (paragraphCountChanged selectedParagraphCount);;
  Slot.emit (pageCountChanged (calculatePageCount selectionWordCount));;
  Slot.emit (complexWordsChanged
               (calculateComplexWords selectionWordCount selectionLixLongWordCount));;
  Slot.emit (readingTimeChanged (calculateReadingTime selectionWordCount));;
  Slot.emit (lixReadingEaseChanged
               (calculateLIX selectionWordCount selectionLixLongWordCount
                             selectionSentenceCount));;
  Slot.emit (readabilityIndexChanged
               (calculateCLI selectionWordCharacterCount selectionWordCount
                             selectionSentenceCount)).

(** ** Invariants, and what the specification says, as definitions *)

(** What holds of the scanner's state after [n] characters.  Inside a
    word the lengths count its letters and at most one absorbed
    separator; outside a word [wordLen] is 0. *)
Record scanned (n : Z) (s : WordScan.t) : Prop := {
  scanned_separators : 0 <= WordScan.separatorCount s <= n;
  scanned_long : 0 <= WordScan.lixLongWords s <= WordScan.words s;
  scanned_words :
    0 <= WordScan.words s /\ WordScan.words s + WordScan.wordLen s <= n;
  scanned_chars :
    WordScan.wordLen s <= WordScan.alphaNumericCharacters s <= n;
  scanned_in :
    WordScan.inWord s = true ->
    WordScan.separatorCount s <= 1
    /\ 1 + WordScan.separatorCount s <= WordScan.wordLen s;
  scanned_out : WordScan.inWord s = false -> WordScan.wordLen s = 0
}.

(** *** The sentence counter, in the words of the specification *)

(** What the counter asks of the boundary finder on a text of length
    [len]: some call answers a negative position, and every answer
    before it is a position of the text. *)
Fixpoint finderEnds (len : Z) (answers : list Z) : bool :=
  match answers with
  | [] => false
  | answer :: answers' =>
      (answer <? 0) || ((answer <=? len) && finderEnds len answers')
  end.

(** The boundary steps [(oldPos, nextPos)] of the walk that starts at
    [oldPos], up to and with the step on which the finder answers a
    negative position. *)
Fixpoint boundarySteps (oldPos : Z) (answers : list Z) : list (Z * Z) :=
  match answers with
  | [] => []
  | answer :: answers' =>
      (oldPos, answer)
      :: (if answer <? 0 then [] else boundarySteps answer answers')
  end.

(** The characters of the text from [oldPos] up to [nextPos]. *)
Definition segment (t : QString) (step : Z * Z) : QString :=
  take (Z.to_nat (snd step - fst step)) (drop (Z.to_nat (fst step)) t).

(** A segment is a sentence when it is longer than 1 character, or is
    exactly 1 character and that character is not white space. *)
Definition countsAsSentence (seg : QString) : bool :=
  (1 <? qlength seg)
  || ((qlength seg =? 1) && forallb (fun c => negb (isSpace c)) seg).

Definition sentenceSteps (t : QString) (answers : list Z) : Z :=
  Z.of_nat
    (length (List.filter (fun step => countsAsSentence (segment t step))
                         (boundarySteps 0 answers))).

(** *** The aggregation engine, in the words of the specification *)

(** The number of paragraphs whose trimmed text is not empty. *)
Definition nonBlankParagraphs (doc : MarkdownDocument) : Z :=
  Z.of_nat
    (length (List.filter (fun b => nonBlank (Block.text b)) doc)).

(** The boundary finder keeps its contract on the text of [b]. *)
Definition finderEndsOn (b : Block.t) : Prop :=
  let t := trimmed (Block.text b) in
  finderEnds (qlength t) (sentenceBoundaries t) = true.

(** The paragraph [b] with the cache entry a pass computes for it. *)
Definition refreshed (b : Block.t) : Block.t :=
  let '(words, lixLongWords, alphaNumericCharacters) :=
    countWords (Block.text b) in
  Block.mk (Block.text b)
    (Some (TextBlockData.mk words lixLongWords alphaNumericCharacters
             (default 0 (countSentences (Block.text b))))).

Definition entryOf (b : Block.t) : TextBlockData.t :=
  default (TextBlockData.mk 0 0 0 0) (Block.userData (refreshed b)).

(** The private state once a pass that started from [d] has visited
    the paragraphs [done] and has [todo] left. *)
Definition visited (d : Stats.t) (done todo : list Block.t) : Stats.t :=
  Stats.mk (map refreshed done ++ todo)
    (sumZ (map (fun b => TextBlockData.wordCount (entryOf b)) done))
    (Stats.totalWordCount d)
    (sumZ (map (fun b => TextBlockData.alphaNumericCharacterCount (entryOf b))
               done))
    (sumZ (map (fun b => TextBlockData.sentenceCount (entryOf b)) done))
    (nonBlankParagraphs done)
    0
    (sumZ (map (fun b => TextBlockData.lixLongWordCount (entryOf b)) done))
    0.

(** The batch of ten signals that publishes the metrics of the state
    [d]. *)
Definition batchOf (d : Stats.t) : list Signal :=
  [wordCountChanged (wordCount d);
   totalWordCountChanged (wordCount d);
   characterCountChanged (Document.characterCount (document d) - 1);
   sentenceCountChanged (sentenceCount d);
   paragraphCountChanged (paragraphCount d);
   pageCountChanged (calculatePageCount (wordCount d));
   complexWordsChanged (calculateComplexWords (wordCount d) (lixLongWordCount d));
   readingTimeChanged (calculateReadingTime (wordCount d));
   lixReadingEaseChanged
     (calculateLIX (wordCount d) (lixLongWordCount d) (sentenceCount d));
   readabilityIndexChanged
     (calculateCLI (wordCharacterCount d) (wordCount d) (sentenceCount d))].

(** The state [d] with the page count and the reading time of its word
    count. *)
Definition withDerived (d : Stats.t) : Stats.t :=
  Stats.mk (document d) (wordCount d) (totalWordCount d)
    (wordCharacterCount d) (sentenceCount d) (paragraphCount d)
    (calculatePageCount (wordCount d)) (lixLongWordCount d)
    (calculateReadingTime (wordCount d)).

(** The batch of nine signals of a selection with the given numbers of
    sentences and of selected paragraphs. *)
Definition selectionBatch (selectedText : QString) (sentences paragraphs : Z)
    : list Signal :=
  let '(words, lixLongWords, alphaNumericCharacters) :=
    countWords selectedText in
  [wordCountChanged words;
   characterCountChanged (qlength selectedText);
   sentenceCountChanged sentences;
   paragraphCountChanged paragraphs;
   pageCountChanged (calculatePageCount words);
   complexWordsChanged (calculateComplexWords words lixLongWords);
   readingTimeChanged (calculateReadingTime words);
   lixReadingEaseChanged (calculateLIX words lixLongWords sentences);
   readabilityIndexChanged
     (calculateCLI alphaNumericCharacters words sentences)].

(** The position of the first character of the [i]-th paragraph. *)
Definition blockPosition (doc : MarkdownDocument) (i : nat) : Z :=
  Document.characterCount (take i doc).

(** The [i]-th paragraph holds a position of the range from
    [selectionStart] to [selectionEnd], both included. *)
Definition overlapsSelection (doc : MarkdownDocument)
    (selectionStart selectionEnd : Z) (i : nat) : bool :=
  match doc !! i with
  | Some b =>
      (blockPosition doc i <=? selectionEnd)
      && (selectionStart <? blockPosition doc i + Document.blockLength b)
  | None => false
  end.

(** The [i]-th paragraph has a cache entry and its trimmed text is not
    empty. *)
Definition cachedAndNonBlank (doc : MarkdownDocument) (i : nat) : bool :=
  match doc !! i with
  | Some b =>
      match Block.userData b with
      | Some _ => nonBlank (Block.text b)
      | None => false
      end
  | None => false
  end.

Definition selectedParagraphs (doc : MarkdownDocument)
    (selectionStart selectionEnd : Z) : Z :=
  Z.of_nat
    (length
       (List.filter
          (fun i => overlapsSelection doc selectionStart selectionEnd i
                    && cachedAndNonBlank doc i)
          (seq 0 (length doc)))).

(** *** Shapes of text and of scanner states, for the tokenizer *)

(** The three outputs of [countWords] in a scanner state. *)
Definition outputs (s : WordScan.t) : Z * Z * Z :=
  (words s, lixLongWords s, alphaNumericCharacters s).

(** The counts of two texts, added up. *)
Definition plusCounts (x y : Z * Z * Z) : Z * Z * Z :=
  let '(w, l, a) := x in
  let '(w', l', a') := y in
  (w + w', l + l', a + a').

(** 1 for a word of [len] counted characters that LIX takes as long. *)
Definition longWord (len : Z) : Z := if 6 <? len then 1 else 0.

(** The state [s] with [w] words, [l] long words and [a] characters more
    in its three counters. *)
Definition addCounts (w l a : Z) (s : WordScan.t) : WordScan.t :=
  WordScan.mk (inWord s) (separatorCount s) (wordLen s)
    (words s + w) (lixLongWords s + l) (alphaNumericCharacters s + a).

(** Outside a word the number of separators met is of no use: the state
    without it. *)
Definition forgetSeparators (s : WordScan.t) : WordScan.t :=
  if inWord s then s
  else WordScan.mk false 0 (wordLen s) (words s) (lixLongWords s)
         (alphaNumericCharacters s).

(** What the counters owe each other after [n] characters: a closed word
    took a character of its own and one that closed it, and every word
    and every long word (7 characters at least) is paid for in
    [alphaNumericCharacters]. *)
Record tallied (n : Z) (s : WordScan.t) : Prop := {
  tallied_pairs : 2 * words s + (if inWord s then 1 else 0) <= n;
  tallied_words : words s + wordLen s <= alphaNumericCharacters s;
  tallied_long : 7 * lixLongWords s + wordLen s <= alphaNumericCharacters s
}.

(** A boundary finder whose answers rise: every position it answers is
    after the one before and inside the text, until it answers a
    negative one. *)
Fixpoint finderRises (len oldPos : Z) (answers : list Z) : bool :=
  match answers with
  | [] => false
  | answer :: answers' =>
      (answer <? 0)
      || ((oldPos <? answer) && (answer <=? len)
          && finderRises len answer answers')
  end.

(** A paragraph with the text [t] and no cache entry. *)
Definition ofText (t : QString) : Block.t := Block.mk t None.

(** The batch [out] carries, signal by signal, what the accessors of the
    state [d] return. *)
Definition publishesAccessors (d : Stats.t) (out : list Signal) : Prop :=
  exists complexWords lix cli,
    out = [wordCountChanged (DocumentStatistics.wordCount d);
           totalWordCountChanged (DocumentStatistics.wordCount d);
           characterCountChanged (DocumentStatistics.characterCount d);
           sentenceCountChanged (DocumentStatistics.sentenceCount d);
           paragraphCountChanged (DocumentStatistics.paragraphCount d);
           pageCountChanged (DocumentStatistics.pageCount d);
           complexWordsChanged complexWords;
           readingTimeChanged (DocumentStatistics.readingTime d);
           lixReadingEaseChanged lix;
           readabilityIndexChanged cli].

(** The values of the [totalWordCountChanged] signals of a batch. *)
Definition publishedTotalWordCount (out : list Signal) : list Z :=
  omap (fun s => match s with totalWordCountChanged v => Some v | _ => None end)
       out.

(** * Properties *)

(** ** The tokenizer *)

Lemma scanned_init : scanned 0 init.
Proof. split; simpl; try lia; discriminate. Qed.

Lemma scanChar_scanned n s c :
  scanned n s -> scanned (n + 1) (scanChar s c).
Proof.
  intros [Hsep Hlong Hwords Hchars Hin Hout].
  destruct s as [inw sc wl w l a]; simpl in *.
  unfold scanChar; simpl.
  destruct (isLetterOrNumber c).
  { destruct inw; [pose proof (Hin eq_refl) | pose proof (Hout eq_refl)];
      split; simpl; intros; try lia. }
  destruct (isSpace c), inw; simpl;
    try pose proof (Hin eq_refl) as Hw; try pose proof (Hout eq_refl) as Hw;
    repeat match goal with
           | |- context [?x <? ?y] => destruct (Z.ltb_spec x y)
           end;
    split; simpl; intros; try discriminate; try lia.
Qed.

Lemma scanFrom_scanned text : forall n s,
  scanned n s -> scanned (n + qlength text) (scanFrom s text).
Proof.
  unfold qlength.
  induction text as [|c text IH]; intros n s Hs; simpl.
  - now replace (n + Z.of_nat 0) with n by lia.
  - replace (n + Z.of_nat (S (length text)))
      with ((n + 1) + Z.of_nat (length text)) by lia.
    apply IH, scanChar_scanned, Hs.
Qed.

Lemma scan_scanned text : scanned (qlength text) (scan text).
Proof. apply (scanFrom_scanned text 0 init), scanned_init. Qed.

(** The block after the loop keeps the counters in range. *)
Lemma closeLastWord_bounds n s :
  scanned n s ->
  let s' := closeLastWord s in
  0 <= words s' <= n /\ 0 <= lixLongWords s' <= words s'
  /\ 0 <= alphaNumericCharacters s' <= n /\ 0 <= wordLen s'.
Proof.
  intros [Hsep Hlong Hwords Hchars Hin Hout].
  destruct s as [inw sc wl w l a]; simpl in *.
  unfold closeLastWord; simpl.
  destruct inw; simpl;
    [pose proof (Hin eq_refl) | pose proof (Hout eq_refl)];
    repeat match goal with
           | |- context [?x <? ?y] => destruct (Z.ltb_spec x y)
           end; simpl; lia.
Qed.

(** No counter of [countWords] exceeds the length of the text: within
    [int], nothing wraps. *)
Lemma countWords_bounded text :
  let '(w, l, a) := countWords text in
  0 <= l <= w /\ w <= qlength text /\ 0 <= a <= qlength text.
Proof.
  unfold countWords.
  pose proof (closeLastWord_bounds _ _ (scan_scanned text)) as H.
  simpl in H. lia.
Qed.

(** C9: [countWords] is a total function; its three outputs are never
    negative, the long words are at most the words, and the empty text
    gives (0, 0, 0).  After every number [i] of loop turns the lengths
    are not negative, and inside a word (the only place where the code
    decrements) [wordLen] and [alphaNumericCharacters] are at least 1
    more than the pending separators, so that no decrement goes below
    zero; the same holds after the block that closes the last word. *)
Theorem countWords_never_negative (text : QString) :
  (let '(w, l, a) := countWords text in
   0 <= w /\ 0 <= l /\ l <= w /\ 0 <= a)
  /\ countWords [] = (0, 0, 0)
  /\ (forall i : nat,
        let s := scan (take i text) in
        0 <= wordLen s <= alphaNumericCharacters s
        /\ 0 <= separatorCount s
        /\ (inWord s = true ->
            separatorCount s <= 1 /\ 1 + separatorCount s <= wordLen s))
  /\ (let s := closeLastWord (scan text) in
      0 <= wordLen s /\ 0 <= alphaNumericCharacters s).
Proof.
  split; [|split; [reflexivity|split]].
  - pose proof (countWords_bounded text) as H.
    destruct (countWords text) as [[w l] a]. lia.
  - intros i s.
    destruct (scan_scanned (take i text))
      as [Hsep Hlong Hwords Hchars Hin Hout].
    fold s in Hsep, Hlong, Hwords, Hchars, Hin, Hout.
    destruct (inWord s) eqn:E.
    + specialize (Hin eq_refl). repeat split; try lia.
    + specialize (Hout eq_refl). repeat split; try lia; discriminate.
  - pose proof (closeLastWord_bounds _ _ (scan_scanned text)) as H.
    simpl in H. simpl. lia.
Qed.

(** ** The sentence counter *)

Lemma dropSpaces_split s :
  exists spaces,
    s = spaces ++ dropSpaces s /\ forallb isSpace spaces = true.
Proof.
  induction s as [|c s [spaces [Hs Hall]]]; simpl.
  - now exists [].
  - destruct (isSpace c) eqn:E.
    + exists (c :: spaces). simpl. rewrite E, Hall.
      split; [f_equal; exact Hs | reflexivity].
    + now exists [].
Qed.

Lemma dropSpaces_head s c rest :
  dropSpaces s = c :: rest -> isSpace c = false.
Proof.
  induction s as [|c' s IH]; simpl; [discriminate|].
  destruct (isSpace c') eqn:E; [exact IH | congruence].
Qed.

Lemma dropSpaces_all_spaces s :
  forallb isSpace s = true -> dropSpaces s = [].
Proof.
  induction s as [|c s IH]; simpl; [reflexivity|].
  destruct (isSpace c); simpl; [exact IH | discriminate].
Qed.

Lemma forallb_rev (f : QChar -> bool) s :
  forallb f (rev s) = forallb f s.
Proof.
  induction s as [|c s IH]; simpl; [reflexivity|].
  rewrite forallb_app, IH. simpl. rewrite andb_true_r. apply andb_comm.
Qed.

(** [trimmed] is the text between a run of leading white space and a
    run of trailing white space, and it ends on no white space. *)
Lemma trimmed_split s :
  exists leading trailing,
    s = leading ++ trimmed s ++ trailing
    /\ forallb isSpace leading = true
    /\ forallb isSpace trailing = true
    /\ (forall rest c, trimmed s = rest ++ [c] -> isSpace c = false).
Proof.
  unfold trimmed.
  destruct (dropSpaces_split s) as [leading [Hs Hleading]].
  destruct (dropSpaces_split (rev (dropSpaces s))) as [gniliart [Hr Htrailing]].
  exists leading, (rev gniliart). repeat split.
  - rewrite <- rev_app_distr, <- Hr, rev_involutive. exact Hs.
  - exact Hleading.
  - now rewrite forallb_rev.
  - intros rest c H.
    apply (f_equal (@rev QChar)) in H.
    rewrite rev_involutive, rev_app_distr in H. simpl in H.
    exact (dropSpaces_head _ _ _ H).
Qed.

Lemma trimmed_all_spaces s :
  forallb isSpace s = true -> trimmed s = [].
Proof.
  intros H. unfold trimmed.
  now rewrite (dropSpaces_all_spaces s H).
Qed.

Lemma segment_length t oldPos nextPos :
  0 <= oldPos -> nextPos <= qlength t ->
  qlength (segment t (oldPos, nextPos)) = Z.max 0 (nextPos - oldPos).
Proof.
  unfold segment, qlength. simpl. intros Hold Hnext.
  rewrite length_take, length_drop. lia.
Qed.

Lemma segment_single t oldPos :
  0 <= oldPos -> oldPos + 1 <= qlength t ->
  exists c, charAt t oldPos = Some c /\ segment t (oldPos, oldPos + 1) = [c].
Proof.
  unfold segment, qlength, charAt. simpl. intros Hold Hnext.
  destruct (Z.ltb_spec oldPos 0); [lia|].
  destruct (lookup_lt_is_Some_2 t (Z.to_nat oldPos)) as [c Hc]; [lia|].
  exists c. split; [exact Hc|].
  rewrite (drop_S _ _ _ Hc).
  now replace (Z.to_nat (oldPos + 1 - oldPos)) with 1%nat by lia.
Qed.

(** The loop of the code counts the boundary steps whose segment is a
    sentence. *)
Lemma sentenceLoop_counts t : forall answers oldPos count,
  0 <= oldPos <= qlength t ->
  finderEnds (qlength t) answers = true ->
  sentenceLoop t answers oldPos count
  = Some (count
          + Z.of_nat
              (length
                 (List.filter
                    (fun step => countsAsSentence (segment t step))
                    (boundarySteps oldPos answers)))).
Proof.
  induction answers as [|answer answers IH]; intros oldPos count Hold Hends;
    [discriminate|].
  simpl in Hends. simpl.
  destruct (Z.ltb_spec oldPos 0) as [|_]; [lia|].
  destruct (Z.ltb_spec answer 0) as [Hneg|Hpos].
  - (* the finder is done: the step is not counted and the loop ends *)
    assert (segment t (oldPos, answer) = []) as Hseg.
    { unfold segment. simpl.
      now replace (Z.to_nat (answer - oldPos)) with 0%nat by lia. }
    rewrite Hseg.
    destruct (Z.ltb_spec 1 (answer - oldPos)); [lia|].
    destruct (Z.ltb_spec 0 (answer - oldPos)); [lia|].
    destruct answers; simpl;
      (destruct (Z.ltb_spec answer 0); [|lia]); f_equal; lia.
  - simpl in Hends. apply andb_prop in Hends as [Hle Hends].
    apply Z.leb_le in Hle.
    pose proof (segment_length t oldPos answer ltac:(lia) Hle) as Hlen.
    unfold countsAsSentence at 1.
    destruct (Z.ltb_spec 1 (answer - oldPos)) as [Hlong|Hshort].
    + rewrite IH by (auto; lia).
      destruct (Z.ltb_spec 1 (qlength (segment t (oldPos, answer))));
        [|lia].
      simpl. f_equal. lia.
    + destruct (Z.ltb_spec 0 (answer - oldPos)) as [Hone|Hnone].
      * assert (answer = oldPos + 1) as -> by lia.
        destruct (segment_single t oldPos ltac:(lia) Hle) as [c [Hc Hseg]].
        rewrite Hc, IH by (auto; lia). rewrite Hseg.
        unfold qlength. simpl.
        destruct (isSpace c); simpl; f_equal; lia.
      * rewrite IH by (auto; lia).
        destruct (Z.ltb_spec 1 (qlength (segment t (oldPos, answer))));
          [lia|].
        destruct (Z.eqb_spec (qlength (segment t (oldPos, answer))) 1);
          [lia|].
        simpl. f_equal.
Qed.

Lemma countSentences_returns text :
  finderEnds (qlength (trimmed text)) (sentenceBoundaries (trimmed text))
  = true ->
  exists n, countSentences text = Some n.
Proof.
  intros H. unfold countSentences.
  destruct (0 <? qlength (trimmed text)); [|now exists 0].
  rewrite sentenceLoop_counts by (auto; unfold qlength; lia).
  eauto.
Qed.

(** C8: [countSentences] works on the trimmed text (the text without its
    leading and trailing white space) and answers 0 when that is empty,
    as for a text of white space only.  Otherwise, when the boundary
    finder ends with a negative answer after positions of the text, it
    answers the number of boundary steps from [oldPos] to [nextPos] whose
    segment is longer than 1 character, or is 1 character that is not
    white space. *)
Theorem countSentences_counts_steps (text : QString) :
  let trimmedText := trimmed text in
  (exists leading trailing,
     text = leading ++ trimmedText ++ trailing
     /\ forallb isSpace leading = true /\ forallb isSpace trailing = true)
  /\ (trimmedText = [] -> countSentences text = Some 0)
  /\ (forallb isSpace text = true -> countSentences text = Some 0)
  /\ (trimmedText <> [] ->
      finderEnds (qlength trimmedText) (sentenceBoundaries trimmedText) = true ->
      countSentences text
      = Some (sentenceSteps trimmedText (sentenceBoundaries trimmedText))).
Proof.
  intros trimmedText. split; [|split; [|split]].
  - destruct (trimmed_split text) as [l [t [H [Hl [Ht _]]]]].
    now exists l, t.
  - unfold countSentences. fold trimmedText. now intros ->.
  - intros H. unfold countSentences.
    now rewrite (trimmed_all_spaces text H).
  - intros Hne Hends. unfold countSentences. fold trimmedText.
    destruct (Z.ltb_spec 0 (qlength trimmedText)) as [_|H].
    + rewrite sentenceLoop_counts by (auto; unfold qlength; lia).
      reflexivity.
    + destruct trimmedText; [congruence | unfold qlength in H; simpl in H; lia].
Qed.

(** ** The aggregation engine *)

Ltac run_slot :=
  unfold mbind, mret, Slot_bind, Slot_ret, Slot.bind, Slot.ret,
    Slot.get, Slot.put, Slot.emit, Slot.lift; simpl.

(** A computation that emits nothing hands its result and its state to
    what follows. *)
Lemma bind_silent {A B} (m : Slot A) (k : A -> Slot B) d a d1 :
  m d = Some (a, d1, []) -> (m ≫= k) d = k a d1.
Proof.
  intros H. unfold mbind, Slot_bind, Slot.bind. rewrite H.
  now destruct (k a d1) as [[[b d2] out2]|].
Qed.

Ltac slot_step := erewrite bind_silent; [|reflexivity].

(** A call of [updateStatistics]: the ten signals, and the state with
    the page count and the reading time of its word count. *)
Lemma updateStatistics_run d :
  updateStatistics d = Some (tt, withDerived d, batchOf d).
Proof. reflexivity. Qed.

Lemma sumZ_snoc l x : sumZ (l ++ [x]) = sumZ l + x.
Proof. unfold sumZ. induction l as [|y l IH]; simpl; lia. Qed.

Lemma sumZ_map_snoc {A} (f : A -> Z) l x :
  sumZ (map f (l ++ [x])) = sumZ (map f l) + f x.
Proof. rewrite map_app. apply sumZ_snoc. Qed.

Lemma nonBlankParagraphs_snoc done b :
  nonBlankParagraphs (done ++ [b])
  = if nonBlank (Block.text b)
    then nonBlankParagraphs done + 1
    else nonBlankParagraphs done.
Proof.
  unfold nonBlankParagraphs. rewrite filter_app, length_app. simpl.
  destruct (nonBlank (Block.text b)); simpl; lia.
Qed.

(** One call of [updateBlockStatistics], with the counts of the text of
    the block. *)
Lemma updateBlockStatistics_run d block w l a n :
  countWords (Document.text (document d) block) = (w, l, a) ->
  countSentences (Document.text (document d) block) = Some n ->
  updateBlockStatistics block d
  = Some (tt,
          Stats.mk
            (Document.setUserData (document d) block (TextBlockData.mk w l a n))
            (wordCount d + w) (totalWordCount d) (wordCharacterCount d + a)
            (sentenceCount d + n)
            (if nonBlank (Document.text (document d) block)
             then paragraphCount d + 1 else paragraphCount d)
            (pageCount d) (lixLongWordCount d + l) (readTimeMinutes d),
          []).
Proof.
  intros Hw Hn. unfold countWords in Hw. injection Hw as <- <- <-.
  unfold updateBlockStatistics. run_slot. rewrite Hn. reflexivity.
Qed.

Lemma refreshed_entry b w l a n :
  countWords (Block.text b) = (w, l, a) ->
  countSentences (Block.text b) = Some n ->
  refreshed b = Block.mk (Block.text b) (Some (TextBlockData.mk w l a n))
  /\ entryOf b = TextBlockData.mk w l a n.
Proof.
  intros Hw Hn. unfold entryOf, refreshed. now rewrite Hw, Hn.
Qed.

Lemma refreshed_text b : Block.text (refreshed b) = Block.text b.
Proof. unfold refreshed. now destruct (countWords (Block.text b)) as [[w l] a]. Qed.

(** Visiting the next paragraph of a pass. *)
Lemma updateBlockStatistics_visited d done b todo :
  finderEndsOn b ->
  updateBlockStatistics (Some (length done)) (visited d done (b :: todo))
  = Some (tt, visited d (done ++ [b]) todo, []).
Proof.
  intros Hends.
  destruct (countSentences_returns _ Hends) as [n Hn].
  destruct (refreshed_entry b _ _ _ n eq_refl Hn) as [Hr He].
  assert ((map refreshed done ++ b :: todo) !! length done = Some b) as Hb.
  { apply list_lookup_middle. now rewrite length_map. }
  assert (Document.text (document (visited d done (b :: todo)))
            (Some (length done)) = Block.text b) as Ht.
  { unfold visited, Document.text, Document.paragraph. simpl. now rewrite Hb. }
  rewrite (updateBlockStatistics_run _ _ _ _ _ n eq_refl) by (now rewrite Ht).
  rewrite Ht. unfold visited.
  rewrite !sumZ_map_snoc, nonBlankParagraphs_snoc, map_app, He.
  cbn [document wordCount totalWordCount wordCharacterCount sentenceCount
       paragraphCount pageCount lixLongWordCount readTimeMinutes map
       TextBlockData.wordCount TextBlockData.lixLongWordCount
       TextBlockData.alphaNumericCharacterCount TextBlockData.sentenceCount].
  unfold Document.setUserData. rewrite Hb, Hr.
  replace (length done) with (length (map refreshed done) + 0)%nat at 1
    by (rewrite length_map; lia).
  rewrite insert_app_r, <- app_assoc.
  reflexivity.
Qed.

(** The loop of [onTextChanged] visits the paragraphs that are left,
    in order, and ends. *)
Lemma changedLoop_visited d : forall todo done b fuel,
  (length todo <= fuel)%nat ->
  Forall finderEndsOn todo ->
  changedLoop fuel (Some (length done))
    (Some (length done + length todo)%nat) (visited d (done ++ [b]) todo)
  = Some (tt, visited d (done ++ [b] ++ todo) [], []).
Proof.
  induction todo as [|b' todo IH]; intros done b fuel Hfuel Hends.
  - rewrite app_nil_r.
    destruct fuel; cbn [changedLoop length];
      (case_decide as Hne; [reflexivity | exfalso; apply Hne; f_equal; lia]).
  - destruct fuel as [|fuel]; [simpl in Hfuel; lia|].
    inversion Hends as [|? ? Hb' Hends']; subst.
    cbn [changedLoop].
    case_decide as Heq; [simpl in Heq; injection Heq; lia|].
    slot_step. cbv zeta.
    assert (Document.next (document (visited d (done ++ [b]) (b' :: todo)))
              (Some (length done)) = Some (length (done ++ [b]))) as ->.
    { unfold Document.next, visited. cbn [document].
      rewrite !length_app, length_map, length_app. simpl.
      case_decide; [f_equal; lia | lia]. }
    erewrite bind_silent
      by apply (updateBlockStatistics_visited d (done ++ [b]) b' todo Hb').
    replace (length done + length (b' :: todo))%nat
      with (length (done ++ [b]) + length todo)%nat
      by (rewrite length_app; simpl; lia).
    rewrite (IH (done ++ [b]) b' fuel) by (auto; simpl in Hfuel; lia).
    now rewrite <- !app_assoc.
Qed.

(** [onTextChanged] visits every paragraph once, from the first to the
    last, and publishes one batch. *)
Lemma onTextChanged_run position charsRemoved charsAdded d :
  Forall finderEndsOn (document d) ->
  onTextChanged position charsRemoved charsAdded d
  = Some (tt, withDerived (visited d (document d) []),
          batchOf (visited d (document d) [])).
Proof.
  intros Hends. unfold onTextChanged.
  slot_step. slot_step. cbv zeta.
  fold (visited d [] (document d)).
  destruct (document d) as [|b todo].
  - slot_step. slot_step. reflexivity.
  - inversion Hends as [|? ? Hb Hends']; subst.
    erewrite bind_silent
      by apply (updateBlockStatistics_visited d [] b todo Hb).
    replace (Document.lastBlock (b :: todo))
      with (Some (length (@nil Block.t) + length todo)%nat)
      by (unfold Document.lastBlock; f_equal; simpl; lia).
    erewrite bind_silent
      by (apply (changedLoop_visited d todo [] b); auto; simpl; lia).
    reflexivity.
Qed.

(** What a pass leaves in the document: the texts, and an entry with
    the counts of its text in every paragraph. *)
Lemma refreshed_cached b :
  cachedWordCount (refreshed b) = TextBlockData.wordCount (entryOf b).
Proof.
  unfold cachedWordCount, entryOf, refreshed.
  now destruct (countWords (Block.text b)) as [[w l] a].
Qed.

Lemma refreshed_texts doc :
  map Block.text (map refreshed doc) = map Block.text doc.
Proof.
  induction doc as [|b doc IH]; cbn [map]; [reflexivity|].
  now rewrite refreshed_text, IH.
Qed.

Lemma refreshed_characterCount doc :
  Document.characterCount (map refreshed doc) = Document.characterCount doc.
Proof.
  unfold Document.characterCount.
  induction doc as [|b doc IH]; cbn [map fold_right]; [reflexivity|].
  unfold Document.blockLength at 1. now rewrite refreshed_text, IH.
Qed.

Lemma refreshed_nonBlank doc :
  nonBlankParagraphs (map refreshed doc) = nonBlankParagraphs doc.
Proof.
  unfold nonBlankParagraphs. f_equal.
  induction doc as [|b doc IH]; cbn [map List.filter]; [reflexivity|].
  rewrite refreshed_text.
  destruct (nonBlank (Block.text b)); cbn [length]; now rewrite IH.
Qed.

Lemma refreshed_sum doc :
  sumZ (map cachedWordCount (map refreshed doc))
  = sumZ (map (fun b => TextBlockData.wordCount (entryOf b)) doc).
Proof.
  unfold sumZ.
  induction doc as [|b doc IH]; cbn [map fold_right]; [reflexivity|].
  now rewrite refreshed_cached, IH.
Qed.

(** The totals of a pass stay within the character count of the
    document, which is an [int]: the sums do not wrap. *)
Lemma visited_bounded doc :
  0 <= sumZ (map (fun b => TextBlockData.wordCount (entryOf b)) doc)
    <= Document.characterCount doc
  /\ 0 <= sumZ (map (fun b => TextBlockData.alphaNumericCharacterCount
                               (entryOf b)) doc)
    <= Document.characterCount doc
  /\ 0 <= sumZ (map (fun b => TextBlockData.lixLongWordCount (entryOf b)) doc)
    <= Document.characterCount doc.
Proof.
  unfold sumZ, Document.characterCount.
  induction doc as [|b doc IH]; cbn [map fold_right]; [lia|].
  pose proof (countWords_bounded (Block.text b)) as H.
  assert (countWords (Block.text b)
          = (TextBlockData.wordCount (entryOf b),
             TextBlockData.lixLongWordCount (entryOf b),
             TextBlockData.alphaNumericCharacterCount (entryOf b))) as E.
  { unfold entryOf, refreshed.
    now destruct (countWords (Block.text b)) as [[w l] a]. }
  rewrite E in H. cbv beta iota in H.
  assert (qlength (Block.text b) < Document.blockLength b)
    by (unfold Document.blockLength; lia).
  lia.
Qed.

(** C4: a whole-document recompute ends (when the boundary finder does,
    on every paragraph), keeps the texts, leaves in every paragraph a
    cache entry with the word count of its text, and publishes as word
    count the sum of the cached word counts of the paragraphs in document
    order and as paragraph count the number of paragraphs whose trimmed
    text is not empty; the accessors answer the same two values. *)
Theorem onTextChanged_sums_cache (position charsRemoved charsAdded : Z)
    (d : Stats.t) :
  Forall finderEndsOn (document d) ->
  exists d' out,
    onTextChanged position charsRemoved charsAdded d = Some (tt, d', out)
    /\ map Block.text (document d') = map Block.text (document d)
    /\ Forall (fun b => exists data,
                 Block.userData b = Some data
                 /\ TextBlockData.wordCount data
                    = fst (fst (countWords (Block.text b))))
              (document d')
    /\ publishedWordCount out = [sumZ (map cachedWordCount (document d'))]
    /\ DocumentStatistics.wordCount d'
       = sumZ (map cachedWordCount (document d'))
    /\ publishedParagraphCount out = [nonBlankParagraphs (document d')]
    /\ DocumentStatistics.paragraphCount d'
       = nonBlankParagraphs (document d').
Proof.
  intros Hends.
  exists (withDerived (visited d (document d) [])),
         (batchOf (visited d (document d) [])).
  split; [now apply onTextChanged_run|].
  unfold withDerived, batchOf, visited, DocumentStatistics.wordCount,
    DocumentStatistics.paragraphCount, publishedWordCount,
    publishedParagraphCount.
  cbn [document wordCount paragraphCount omap list_omap].
  rewrite !app_nil_r, refreshed_texts, refreshed_sum, refreshed_nonBlank.
  repeat split.
  apply Forall_forall. intros b' Hin.
  apply in_map_iff in Hin as [b [<- _]].
  unfold refreshed.
  destruct (countWords (Block.text b)) as [[w l] a] eqn:Hw.
  cbn [Block.userData Block.text]. rewrite Hw. eauto.
Qed.

(** A selection event that ends has read the state only. *)
Lemma onTextSelected_inv selectedText selectionStart selectionEnd d r d' out :
  onTextSelected selectedText selectionStart selectionEnd d = Some (r, d', out) ->
  exists sentences paragraphs,
    countSentences selectedText = Some sentences
    /\ selectedLoop (document d) (S (length (document d)))
         (Document.findBlock (document d) selectionStart)
         (Document.next (document d)
            (Document.findBlock (document d) selectionEnd)) 0
       = Some paragraphs
    /\ d' = d
    /\ out = selectionBatch selectedText sentences paragraphs.
Proof.
  unfold onTextSelected, selectionBatch.
  destruct (countWords selectedText) as [[w l] a].
  unfold mbind, Slot_bind, Slot.bind, Slot.lift, Slot.get, Slot.emit.
  destruct (countSentences selectedText) as [n|]; [|discriminate].
  destruct (selectedLoop _ _ _ _ _) as [p|]; [|discriminate].
  cbn. intros H. injection H as <- <- <-. now exists n, p.
Qed.

Lemma onTextSelected_run selectedText selectionStart selectionEnd d
    sentences paragraphs :
  countSentences selectedText = Some sentences ->
  selectedLoop (document d) (S (length (document d)))
    (Document.findBlock (document d) selectionStart)
    (Document.next (document d)
       (Document.findBlock (document d) selectionEnd)) 0
  = Some paragraphs ->
  onTextSelected selectedText selectionStart selectionEnd d
  = Some (tt, d, selectionBatch selectedText sentences paragraphs).
Proof.
  intros Hn Hp. unfold onTextSelected, selectionBatch.
  destruct (countWords selectedText) as [[w l] a].
  unfold mbind, Slot_bind, Slot.bind, Slot.lift, Slot.get, Slot.emit.
  rewrite Hn. cbv zeta. rewrite Hp. reflexivity.
Qed.

(** C10: a selection event that ends leaves the private state, document
    and cache included, as it found it: every accessor answers after it
    what it answered before. *)
Theorem onTextSelected_keeps_state (selectedText : QString)
    (selectionStart selectionEnd : Z) (d d' : Stats.t) (out : list Signal) :
  onTextSelected selectedText selectionStart selectionEnd d = Some (tt, d', out) ->
  d' = d
  /\ DocumentStatistics.wordCount d' = DocumentStatistics.wordCount d
  /\ DocumentStatistics.characterCount d' = DocumentStatistics.characterCount d
  /\ DocumentStatistics.sentenceCount d' = DocumentStatistics.sentenceCount d
  /\ DocumentStatistics.paragraphCount d' = DocumentStatistics.paragraphCount d
  /\ DocumentStatistics.pageCount d' = DocumentStatistics.pageCount d
  /\ DocumentStatistics.readingTime d' = DocumentStatistics.readingTime d.
Proof.
  intros H.
  destruct (onTextSelected_inv _ _ _ _ _ _ _ H) as [n [p [_ [_ [-> _]]]]].
  repeat split.
Qed.

(** *** Positions and the selected paragraphs *)

Lemma characterCount_app (l1 l2 : MarkdownDocument) :
  Document.characterCount (l1 ++ l2)
  = Document.characterCount l1 + Document.characterCount l2.
Proof.
  unfold Document.characterCount.
  induction l1 as [|b l1 IH]; simpl; [reflexivity | rewrite IH; lia].
Qed.

Lemma blockLength_pos b : 1 <= Document.blockLength b.
Proof. unfold Document.blockLength, qlength. lia. Qed.

Lemma blockPosition_S (doc : MarkdownDocument) i b :
  doc !! i = Some b ->
  blockPosition doc (S i) = blockPosition doc i + Document.blockLength b.
Proof.
  intros H. unfold blockPosition.
  rewrite (take_S_r _ _ _ H), characterCount_app.
  unfold Document.characterCount. simpl. lia.
Qed.

Lemma blockPosition_mono (doc : MarkdownDocument) i j :
  (i <= j)%nat -> blockPosition doc i <= blockPosition doc j.
Proof.
  induction 1 as [|j _ IH]; [lia|].
  destruct (doc !! j) as [b|] eqn:E.
  - rewrite (blockPosition_S _ _ _ E). pose proof (blockLength_pos b). lia.
  - apply lookup_ge_None in E. unfold blockPosition in *.
    rewrite (take_ge doc (S j)) by lia. now rewrite (take_ge doc j) in IH by lia.
Qed.

Lemma findBlockFrom_spec : forall (bs : MarkdownDocument) i pos,
  0 <= pos < Document.characterCount bs ->
  exists k b,
    Document.findBlockFrom i bs pos = Some (i + k)%nat
    /\ bs !! k = Some b
    /\ blockPosition bs k <= pos < blockPosition bs k + Document.blockLength b.
Proof.
  unfold blockPosition.
  induction bs as [|b bs IH]; intros i pos Hpos.
  - unfold Document.characterCount in Hpos. simpl in Hpos. lia.
  - cbn [Document.findBlockFrom].
    destruct (Z.ltb_spec pos (Document.blockLength b)) as [Hin|Hafter].
    + exists 0%nat, b. rewrite Nat.add_0_r.
      unfold Document.characterCount. simpl. repeat split; lia.
    + destruct (IH (S i) (pos - Document.blockLength b)) as [k [b' [Hf [Hk Hr]]]].
      { unfold Document.characterCount in *. simpl in Hpos. lia. }
      exists (S k), b'. rewrite Hf.
      replace (S i + k)%nat with (i + S k)%nat by lia.
      repeat split; try exact Hk;
        unfold Document.characterCount in *; simpl; lia.
Qed.

(** [findBlock] answers the paragraph that holds the position. *)
Lemma findBlock_spec (doc : MarkdownDocument) pos :
  0 <= pos < Document.characterCount doc ->
  exists i b,
    Document.findBlock doc pos = Some i
    /\ doc !! i = Some b
    /\ blockPosition doc i <= pos < blockPosition doc (S i).
Proof.
  intros Hpos. unfold Document.findBlock.
  destruct (Z.ltb_spec pos 0); [lia|].
  destruct (findBlockFrom_spec doc 0 pos Hpos) as [k [b [Hf [Hk Hr]]]].
  exists k, b. rewrite (blockPosition_S _ _ _ Hk). auto.
Qed.

(** The paragraphs that hold a position of the range are those from the
    paragraph of its start to the paragraph of its end. *)
Lemma overlapsSelection_range (doc : MarkdownDocument)
    selectionStart selectionEnd s e bs be :
  doc !! s = Some bs -> doc !! e = Some be ->
  blockPosition doc s <= selectionStart < blockPosition doc (S s) ->
  blockPosition doc e <= selectionEnd < blockPosition doc (S e) ->
  forall i,
    overlapsSelection doc selectionStart selectionEnd i
    = ((s <=? i)%nat && (i <=? e)%nat).
Proof.
  intros Hs He Hstart Hend i. unfold overlapsSelection.
  destruct (doc !! i) as [b|] eqn:Hi.
  - rewrite <- (blockPosition_S _ _ _ Hi).
    destruct (Nat.leb_spec s i) as [Hsi|Hsi];
      destruct (Nat.leb_spec i e) as [Hie|Hie]; simpl.
    + pose proof (blockPosition_mono doc i e Hie).
      pose proof (blockPosition_mono doc (S s) (S i) ltac:(lia)).
      apply andb_true_intro. split; [apply Z.leb_le | apply Z.ltb_lt]; lia.
    + pose proof (blockPosition_mono doc (S e) i ltac:(lia)).
      apply andb_false_intro1. apply Z.leb_gt. lia.
    + pose proof (blockPosition_mono doc (S i) s ltac:(lia)).
      apply andb_false_intro2. apply Z.ltb_ge. lia.
    + pose proof (blockPosition_mono doc (S i) s ltac:(lia)).
      apply andb_false_intro2. apply Z.ltb_ge. lia.
  - apply lookup_ge_None in Hi. apply lookup_lt_Some in He.
    destruct (Nat.leb_spec i e); [lia|]. now rewrite andb_false_r.
Qed.

Lemma filter_none {A} (f : A -> bool) l :
  (forall x, In x l -> f x = false) -> List.filter f l = [].
Proof.
  induction l as [|x l IH]; intros H; simpl; [reflexivity|].
  rewrite (H x (or_introl eq_refl)). apply IH. intros y Hy. apply H. now right.
Qed.

Lemma filter_range (f : nat -> bool) n s e :
  (s <= e < n)%nat ->
  List.filter (fun i => (s <=? i)%nat && (i <=? e)%nat && f i) (seq 0 n)
  = List.filter f (seq s (S e - s)).
Proof.
  intros H.
  replace n with (s + ((S e - s) + (n - S e)))%nat by lia.
  rewrite !seq_app, !filter_app. simpl.
  rewrite (filter_none _ (seq 0 s)), (filter_none _ (seq (s + (S e - s)) _)).
  - rewrite app_nil_r. simpl. apply filter_ext_in.
    intros i Hi. apply in_seq in Hi.
    destruct (Nat.leb_spec s i); [|lia].
    destruct (Nat.leb_spec i e); [reflexivity | lia].
  - intros i Hi. apply in_seq in Hi.
    destruct (Nat.leb_spec i e); [lia|]. now rewrite andb_false_r.
  - intros i Hi. apply in_seq in Hi.
    destruct (Nat.leb_spec s i); [lia | reflexivity].
Qed.

Lemma selectedLoop_end (doc : MarkdownDocument) fuel block count :
  selectedLoop doc fuel block block count = Some count.
Proof. destruct fuel; simpl; now case_decide. Qed.

(** The loop of [onTextSelected] counts the paragraphs from [s] to [e]
    that have a cache entry and are not blank, and ends. *)
Lemma selectedLoop_range (doc : MarkdownDocument) e :
  (e < length doc)%nat ->
  forall fuel s count,
  (s <= e)%nat -> (e - s < fuel)%nat ->
  selectedLoop doc fuel (Some s) (Document.next doc (Some e)) count
  = Some (count
          + Z.of_nat (length (List.filter (cachedAndNonBlank doc)
                                          (seq s (S e - s))))).
Proof.
  intros He.
  induction fuel as [|fuel IH]; intros s count Hs Hfuel; [lia|].
  cbn [selectedLoop].
  case_decide as Heq.
  { unfold Document.next in Heq. case_decide; [injection Heq; lia | discriminate]. }
  replace (S e - s)%nat with (S (e - s)) by lia. cbn [seq List.filter].
  assert (match Document.userData doc (Some s) with
          | Some _ =>
              if nonBlank (Document.text doc (Some s)) then count + 1 else count
          | None => count
          end
          = count + (if cachedAndNonBlank doc s then 1 else 0)) as ->.
  { unfold Document.userData, Document.text, Document.paragraph,
      cachedAndNonBlank.
    destruct (doc !! s) as [b|]; [|lia].
    destruct (Block.userData b); [|lia].
    destruct (nonBlank (Block.text b)); lia. }
  destruct (decide (s = e)) as [->|Hne].
  - rewrite selectedLoop_end. replace (e - e)%nat with 0%nat by lia.
    simpl. destruct (cachedAndNonBlank doc e); simpl; f_equal; lia.
  - assert (Document.next doc (Some s) = Some (S s)) as ->.
    { unfold Document.next. case_decide; [reflexivity | lia]. }
    rewrite IH by lia.
    replace (S e - S s)%nat with (e - s)%nat by lia.
    destruct (cachedAndNonBlank doc s); simpl; f_equal; lia.
Qed.

(** The published count of selected paragraphs, for a range inside the
    document. *)
Lemma selectedLoop_selectedParagraphs (doc : MarkdownDocument)
    selectionStart selectionEnd :
  0 <= selectionStart <= selectionEnd ->
  selectionEnd < Document.characterCount doc ->
  selectedLoop doc (S (length doc))
    (Document.findBlock doc selectionStart)
    (Document.next doc (Document.findBlock doc selectionEnd)) 0
  = Some (selectedParagraphs doc selectionStart selectionEnd).
Proof.
  intros Hrange Hend.
  destruct (findBlock_spec doc selectionStart) as [s [bs [-> [Hs Hsp]]]]; [lia|].
  destruct (findBlock_spec doc selectionEnd) as [e [be [-> [He Hep]]]]; [lia|].
  pose proof (lookup_lt_Some _ _ _ He) as Hlt.
  assert (s <= e)%nat as Hse.
  { destruct (Nat.le_gt_cases s e) as [|Hgt]; [assumption|].
    pose proof (blockPosition_mono doc (S e) s ltac:(lia)). lia. }
  rewrite (selectedLoop_range doc e Hlt) by lia.
  rewrite <- (filter_range _ (length doc)) by lia.
  unfold selectedParagraphs. rewrite Z.add_0_l. do 3 f_equal.
  apply filter_ext. intros i.
  now rewrite (overlapsSelection_range doc _ _ s e bs be Hs He Hsp Hep).
Qed.

Lemma selectionBatch_paragraphs selectedText sentences paragraphs :
  publishedParagraphCount (selectionBatch selectedText sentences paragraphs)
  = [paragraphs].
Proof.
  unfold selectionBatch.
  now destruct (countWords selectedText) as [[w l] a].
Qed.

Lemma selectionBatch_characters selectedText sentences paragraphs :
  publishedCharacterCount (selectionBatch selectedText sentences paragraphs)
  = [qlength selectedText].
Proof.
  unfold selectionBatch.
  now destruct (countWords selectedText) as [[w l] a].
Qed.

Lemma selectedParagraphs_no_entry (doc : MarkdownDocument)
    selectionStart selectionEnd :
  Forall (fun b => Block.userData b = None) doc ->
  selectedParagraphs doc selectionStart selectionEnd = 0.
Proof.
  intros H. unfold selectedParagraphs.
  rewrite filter_none; [reflexivity|].
  intros i _. unfold cachedAndNonBlank.
  destruct (doc !! i) as [b|] eqn:E; [|apply andb_false_r].
  rewrite Forall_forall in H.
  rewrite (H b) by (apply list_elem_of_In, list_elem_of_lookup; eauto).
  apply andb_false_r.
Qed.

(** C5: for a selection range inside the document (and a boundary finder
    that ends on the selected text) the selection event ends and
    publishes as paragraph count the number of paragraphs that hold a
    position of the range from [selectionStart] to [selectionEnd], have a
    cache entry and have a trimmed text that is not empty.  Paragraphs
    without an entry are left out: when no paragraph has one, the count
    is 0 whatever is selected. *)
Theorem onTextSelected_counts_cached_paragraphs (selectedText : QString)
    (selectionStart selectionEnd : Z) (d : Stats.t) :
  0 <= selectionStart <= selectionEnd ->
  selectionEnd < Document.characterCount (document d) ->
  finderEnds (qlength (trimmed selectedText))
    (sentenceBoundaries (trimmed selectedText)) = true ->
  exists out,
    onTextSelected selectedText selectionStart selectionEnd d = Some (tt, d, out)
    /\ publishedParagraphCount out
       = [selectedParagraphs (document d) selectionStart selectionEnd]
    /\ (Forall (fun b => Block.userData b = None) (document d) ->
        publishedParagraphCount out = [0]).
Proof.
  intros Hrange Hend Hfinder.
  destruct (countSentences_returns _ Hfinder) as [n Hn].
  pose proof (selectedLoop_selectedParagraphs (document d) _ _ Hrange Hend) as Hp.
  exists (selectionBatch selectedText n
            (selectedParagraphs (document d) selectionStart selectionEnd)).
  split; [now apply onTextSelected_run|].
  rewrite selectionBatch_paragraphs. split; [reflexivity|].
  intros Hnone. now rewrite selectedParagraphs_no_entry.
Qed.

(** C2 (as the code has it): the accessor and every whole-document batch
    (of [updateStatistics], and so of a deselection, of a cleared
    document and of a content change) give the character count of the
    document minus one, whatever the character classes and the boundary
    finder are; a content change does not alter it.  The batch of a
    selection event carries a character count too, but it is the length
    of the selected text. *)
Theorem characterCount_published (d : Stats.t) :
  DocumentStatistics.characterCount d
  = Document.characterCount (document d) - 1
  /\ (exists d',
        updateStatistics d = Some (tt, d', batchOf d)
        /\ onTextDeselected d = Some (tt, d', batchOf d)
        /\ publishedCharacterCount (batchOf d)
           = [DocumentStatistics.characterCount d])
  /\ (exists d' out,
        onCleared d = Some (tt, d', out)
        /\ publishedCharacterCount out = [DocumentStatistics.characterCount d])
  /\ (forall position charsRemoved charsAdded,
        Forall finderEndsOn (document d) ->
        exists d' out,
          onTextChanged position charsRemoved charsAdded d = Some (tt, d', out)
          /\ publishedCharacterCount out
             = [DocumentStatistics.characterCount d]
          /\ DocumentStatistics.characterCount d'
             = DocumentStatistics.characterCount d)
  /\ (forall selectedText selectionStart selectionEnd d' out,
        onTextSelected selectedText selectionStart selectionEnd d
        = Some (tt, d', out) ->
        publishedCharacterCount out = [qlength selectedText]).
Proof.
  split; [reflexivity|split; [|split; [|split]]].
  - exists (withDerived d). repeat split.
  - eexists _, _. split; [reflexivity|]. reflexivity.
  - intros position charsRemoved charsAdded Hends.
    exists (withDerived (visited d (document d) [])),
           (batchOf (visited d (document d) [])).
    split; [now apply onTextChanged_run|].
    unfold DocumentStatistics.characterCount, batchOf, withDerived, visited,
      publishedCharacterCount.
    cbn [document omap list_omap].
    now rewrite app_nil_r, refreshed_characterCount.
  - intros selectedText selectionStart selectionEnd d' out H.
    destruct (onTextSelected_inv _ _ _ _ _ _ _ H) as [n [p [_ [_ [_ ->]]]]].
    apply selectionBatch_characters.
Qed.

(** ** More on the tokenizer *)

Ltac split_ltb :=
  repeat match goal with
         | |- context [?x <? ?y] => destruct (Z.ltb_spec x y)
         end.

Lemma countWords_outputs text :
  countWords text = outputs (closeLastWord (scan text)).
Proof. reflexivity. Qed.

Lemma scanFrom_app s text1 text2 :
  scanFrom s (text1 ++ text2) = scanFrom (scanFrom s text1) text2.
Proof. apply fold_left_app. Qed.

Lemma scanChar_tallied n s c :
  scanned n s -> tallied n s -> tallied (n + 1) (scanChar s c).
Proof.
  intros [Hsep Hlong Hwords Hchars Hin Hout] [Hpairs Hw Hl].
  destruct s as [inw sc wl w l a]; simpl in *.
  unfold scanChar; simpl.
  destruct (isLetterOrNumber c).
  { destruct inw; [pose proof (Hin eq_refl) | pose proof (Hout eq_refl)];
      split; simpl; lia. }
  destruct (isSpace c), inw; simpl;
    try pose proof (Hin eq_refl) as Hi; try pose proof (Hout eq_refl) as Hi;
    split_ltb; split; simpl; lia.
Qed.

Lemma scanFrom_tallied text : forall n s,
  scanned n s -> tallied n s ->
  tallied (n + qlength text) (scanFrom s text).
Proof.
  unfold qlength.
  induction text as [|c text IH]; intros n s Hs Ht; simpl.
  - now replace (n + Z.of_nat 0) with n by lia.
  - replace (n + Z.of_nat (S (length text)))
      with ((n + 1) + Z.of_nat (length text)) by lia.
    apply IH; [apply scanChar_scanned | apply scanChar_tallied]; assumption.
Qed.

Lemma scan_tallied text : tallied (qlength text) (scan text).
Proof.
  apply (scanFrom_tallied text 0 init); [apply scanned_init|].
  split; simpl; lia.
Qed.

(** The block after the loop keeps the tallies. *)
Lemma closeLastWord_tallies n s :
  scanned n s -> tallied n s ->
  let s' := closeLastWord s in
  words s' <= alphaNumericCharacters s'
  /\ 7 * lixLongWords s' <= alphaNumericCharacters s'
  /\ 2 * words s' <= n + 1.
Proof.
  intros [Hsep Hlong Hwords Hchars Hin Hout] [Hpairs Hw Hl].
  destruct s as [inw sc wl w l a]; simpl in *.
  unfold closeLastWord; simpl.
  destruct inw; simpl;
    [pose proof (Hin eq_refl) | pose proof (Hout eq_refl)];
    split_ltb; simpl; lia.
Qed.

(** X1: the three outputs of [countWords] are tied to each other and to
    the text: there are at most as many words as word characters, every
    long word accounts for at least seven word characters, there are at
    most as many word characters as characters in the text, and a text
    of n characters has at most (n + 1) / 2 words. *)
Theorem countWords_tallies (text : QString) :
  let '(w, l, a) := countWords text in
  w <= a /\ 7 * l <= a /\ a <= qlength text /\ 2 * w <= qlength text + 1.
Proof.
  pose proof (closeLastWord_tallies _ _ (scan_scanned text) (scan_tallied text))
    as Ht.
  pose proof (countWords_bounded text) as Hb.
  unfold countWords in *. cbv zeta in Ht. lia.
Qed.

(** The scanner on a run of letters and digits. *)
Lemma scanFrom_letters_in_word : forall text wl w l a,
  forallb isLetterOrNumber text = true ->
  scanFrom (WordScan.mk true 0 wl w l a) text
  = WordScan.mk true 0 (wl + qlength text) w l (a + qlength text).
Proof.
  unfold qlength, scanFrom.
  induction text as [|c text IH]; intros wl w l a H.
  - simpl. f_equal; lia.
  - cbn [forallb] in H. apply andb_prop in H as [Hc H].
    cbn [fold_left]. unfold scanChar at 2. rewrite Hc.
    cbn [wordLen words lixLongWords alphaNumericCharacters].
    rewrite IH by exact H. cbn [length]. f_equal; lia.
Qed.

Lemma scanFrom_letters text c s :
  forallb isLetterOrNumber (c :: text) = true ->
  scanFrom s (c :: text)
  = WordScan.mk true 0 (wordLen s + qlength (c :: text)) (words s)
      (lixLongWords s) (alphaNumericCharacters s + qlength (c :: text)).
Proof.
  intros H. cbn [forallb] in H. apply andb_prop in H as [Hc H].
  unfold scanFrom. cbn [fold_left]. unfold scanChar at 2. rewrite Hc.
  fold (scanFrom (WordScan.mk true 0 (wordLen s + 1) (words s)
                    (lixLongWords s) (alphaNumericCharacters s + 1)) text).
  rewrite scanFrom_letters_in_word by exact H.
  unfold qlength. cbn [length]. f_equal; lia.
Qed.

(** X2: a text made only of letters and digits, and not empty, is one
    word; all its characters are word characters, and it is a long word
    exactly when it has more than six characters. *)
Theorem countWords_letters (c : QChar) (text : QString) :
  forallb isLetterOrNumber (c :: text) = true ->
  countWords (c :: text)
  = (1, longWord (qlength (c :: text)), qlength (c :: text)).
Proof.
  intros H. unfold countWords, scan.
  rewrite (scanFrom_letters text c init H).
  generalize (qlength (c :: text)). intros n.
  unfold closeLastWord, longWord. cbn. now rewrite !Z.add_0_l.
Qed.

(** X3: one character that is neither a letter, a digit nor white
    space, standing between two runs of letters, joins them into a
    single word and is counted in its length and among the word
    characters; standing at the end of the text it is not counted. *)
Theorem countWords_single_separator (c1 c2 separator : QChar)
    (word1 word2 : QString) :
  forallb isLetterOrNumber (c1 :: word1) = true ->
  forallb isLetterOrNumber (c2 :: word2) = true ->
  isLetterOrNumber separator = false ->
  isSpace separator = false ->
  let n1 := qlength (c1 :: word1) in
  let n2 := qlength (c2 :: word2) in
  countWords ((c1 :: word1) ++ separator :: c2 :: word2)
  = (1, longWord (n1 + 1 + n2), n1 + 1 + n2)
  /\ countWords ((c1 :: word1) ++ [separator]) = (1, longWord n1, n1).
Proof.
  intros H1 H2 Hl Hs n1 n2.
  unfold countWords, scan. rewrite !scanFrom_app.
  rewrite (scanFrom_letters word1 c1 init H1). fold n1.
  assert (forall t,
            scanFrom (WordScan.mk true 0 (wordLen init + n1) (words init)
                        (lixLongWords init) (alphaNumericCharacters init + n1))
              (separator :: t)
            = scanFrom (WordScan.mk true 1 (n1 + 1) 0 0 (n1 + 1)) t) as Hsep.
  { intros t. unfold scanFrom. cbn [fold_left]. unfold scanChar at 2.
    rewrite Hl, Hs. reflexivity. }
  rewrite !Hsep. split.
  - rewrite (scanFrom_letters word2 c2 _ H2). fold n2.
    clearbody n1 n2. unfold closeLastWord, longWord. cbn.
    split_ltb; try lia; repeat f_equal; lia.
  - clearbody n1. unfold scanFrom, closeLastWord, longWord. cbn.
    split_ltb; try lia; repeat f_equal; lia.
Qed.

(** X4: two characters that are not letters or digits, the first of
    them no white space, standing between two runs of letters, split
    them into two words; neither of the two characters is counted in a
    word's length or among the word characters. *)
Theorem countWords_double_separator (c1 c2 separator1 separator2 : QChar)
    (word1 word2 : QString) :
  forallb isLetterOrNumber (c1 :: word1) = true ->
  forallb isLetterOrNumber (c2 :: word2) = true ->
  isLetterOrNumber separator1 = false ->
  isSpace separator1 = false ->
  isLetterOrNumber separator2 = false ->
  let n1 := qlength (c1 :: word1) in
  let n2 := qlength (c2 :: word2) in
  countWords ((c1 :: word1) ++ separator1 :: separator2 :: c2 :: word2)
  = (2, longWord n1 + longWord n2, n1 + n2).
Proof.
  intros H1 H2 Hl1 Hs1 Hl2 n1 n2.
  unfold countWords, scan. rewrite !scanFrom_app.
  rewrite (scanFrom_letters word1 c1 init H1). fold n1.
  change (WordScan.mk true 0 (wordLen init + n1) (words init)
            (lixLongWords init) (alphaNumericCharacters init + n1))
    with (WordScan.mk true 0 n1 0 0 n1).
  change (scanFrom ?s (separator1 :: separator2 :: ?t))
    with (scanFrom (scanChar (scanChar s separator1) separator2) t).
  assert (scanChar (WordScan.mk true 0 n1 0 0 n1) separator1
          = WordScan.mk true 1 (n1 + 1) 0 0 (n1 + 1)) as ->.
  { unfold scanChar. now rewrite Hl1, Hs1. }
  assert (scanChar (WordScan.mk true 1 (n1 + 1) 0 0 (n1 + 1)) separator2
          = WordScan.mk false 0 0 1 (longWord n1) n1) as ->.
  { unfold scanChar, longWord. rewrite Hl2. clearbody n1.
    destruct (isSpace separator2); cbn; split_ltb; try lia; f_equal; lia. }
  rewrite (scanFrom_letters word2 c2 _ H2). fold n2.
  clearbody n1 n2. unfold closeLastWord, longWord. cbn.
  split_ltb; try lia; repeat f_equal; lia.
Qed.

Lemma scanChar_addCounts w l a s c :
  scanChar (addCounts w l a s) c = addCounts w l a (scanChar s c).
Proof.
  destruct s as [inw sc wl w0 l0 a0]. unfold scanChar, addCounts.
  cbn [inWord separatorCount wordLen words lixLongWords
       alphaNumericCharacters].
  destruct (isLetterOrNumber c);
    [cbn [inWord separatorCount wordLen words lixLongWords
          alphaNumericCharacters]; f_equal; lia|].
  destruct (isSpace c), inw; cbn; split_ltb; cbn; f_equal; lia.
Qed.

Lemma scanFrom_addCounts w l a text : forall s,
  scanFrom (addCounts w l a s) text = addCounts w l a (scanFrom s text).
Proof.
  unfold scanFrom.
  induction text as [|c text IH]; intros s; cbn [fold_left]; [reflexivity|].
  now rewrite scanChar_addCounts, IH.
Qed.

Lemma closeLastWord_addCounts w l a s :
  outputs (closeLastWord (addCounts w l a s))
  = plusCounts (outputs (closeLastWord s)) (w, l, a).
Proof.
  destruct s as [inw sc wl w0 l0 a0].
  unfold closeLastWord, addCounts, outputs, plusCounts.
  destruct inw; cbn; split_ltb; rewrite !pair_equal_spec; lia.
Qed.

Lemma forgetSeparators_scanChar s c :
  forgetSeparators (scanChar (forgetSeparators s) c)
  = forgetSeparators (scanChar s c).
Proof.
  destruct s as [inw sc wl w l a]. destruct inw; [reflexivity|].
  unfold forgetSeparators, scanChar. cbn.
  destruct (isLetterOrNumber c); [reflexivity|].
  now rewrite andb_false_r.
Qed.

Lemma forgetSeparators_scanFrom text : forall s,
  forgetSeparators (scanFrom (forgetSeparators s) text)
  = forgetSeparators (scanFrom s text).
Proof.
  unfold scanFrom.
  induction text as [|c text IH]; intros s; cbn [fold_left].
  - unfold forgetSeparators. now destruct s as [[] sc wl w l a].
  - now rewrite <- IH, forgetSeparators_scanChar, IH.
Qed.

Lemma outputs_forgetSeparators s :
  outputs (closeLastWord (forgetSeparators s)) = outputs (closeLastWord s).
Proof. now destruct s as [[] sc wl w l a]. Qed.

(** Outside a word the separators met so far do not change the counts
    of what follows. *)
Lemma outputs_scanFrom_forget s text :
  outputs (closeLastWord (scanFrom (forgetSeparators s) text))
  = outputs (closeLastWord (scanFrom s text)).
Proof.
  now rewrite <- outputs_forgetSeparators, forgetSeparators_scanFrom,
    outputs_forgetSeparators.
Qed.

(** A white space character closes a word as the end of the text does. *)
Lemma scanChar_space s space n :
  scanned n s ->
  isLetterOrNumber space = false -> isSpace space = true ->
  let '(w, l, a) := outputs (closeLastWord s) in
  forgetSeparators (scanChar s space) = addCounts w l a init.
Proof.
  intros [Hsep Hlong Hwords Hchars Hin Hout] Hl Hs.
  destruct s as [inw sc wl w l a].
  unfold scanChar, closeLastWord, outputs, forgetSeparators, addCounts.
  rewrite Hl, Hs. destruct inw; cbn.
  - rewrite !Z.add_0_l. reflexivity.
  - cbn in Hout. rewrite (Hout eq_refl), !Z.add_0_l. reflexivity.
Qed.

(** X5: a white space character that is no letter or digit cuts the
    text in two parts that are counted independently: each output of
    [countWords] on the whole text is the sum of the outputs on the part
    before and the part after that character. *)
Theorem countWords_space_adds (space : QChar) (text1 text2 : QString) :
  isLetterOrNumber space = false -> isSpace space = true ->
  countWords (text1 ++ space :: text2)
  = plusCounts (countWords text1) (countWords text2).
Proof.
  intros Hl Hs. rewrite !countWords_outputs. unfold scan.
  rewrite scanFrom_app.
  change (scanFrom (scanFrom init text1) (space :: text2))
    with (scanFrom (scanChar (scanFrom init text1) space) text2).
  rewrite <- outputs_scanFrom_forget.
  pose proof (scanChar_space _ space _ (scan_scanned text1) Hl Hs) as H.
  unfold scan in H.
  destruct (outputs (closeLastWord (scanFrom init text1))) as [[w l] a].
  rewrite H, scanFrom_addCounts, closeLastWord_addCounts.
  destruct (outputs (closeLastWord (scanFrom init text2))) as [[w' l'] a'].
  unfold plusCounts. rewrite !pair_equal_spec. lia.
Qed.

Lemma scanFrom_no_letter text : forall s,
  inWord s = false ->
  forallb (fun c => negb (isLetterOrNumber c)) text = true ->
  forgetSeparators (scanFrom s text) = forgetSeparators s.
Proof.
  unfold scanFrom.
  induction text as [|c text IH]; intros s Hout H; cbn [fold_left];
    [reflexivity|].
  cbn [forallb] in H. apply andb_prop in H as [Hc H].
  apply negb_true_iff in Hc.
  destruct s as [inw sc wl w l a]. cbn in Hout. subst inw.
  rewrite IH; [| |exact H];
    unfold scanChar; rewrite Hc, andb_false_r; reflexivity.
Qed.

Lemma outputs_trailing_spaces spaces : forall s,
  forallb (fun c => negb (isLetterOrNumber c) && isSpace c) spaces = true ->
  outputs (closeLastWord (scanFrom s spaces)) = outputs (closeLastWord s).
Proof.
  unfold scanFrom.
  induction spaces as [|c spaces IH]; intros s H; cbn [fold_left];
    [reflexivity|].
  cbn [forallb] in H. apply andb_prop in H as [Hc H].
  apply andb_prop in Hc as [Hl Hs]. apply negb_true_iff in Hl.
  rewrite IH by exact H.
  destruct s as [inw sc wl w l a].
  unfold scanChar, closeLastWord, outputs. rewrite Hl, Hs.
  now destruct inw.
Qed.

Lemma forallb_weaken {A} (f g : A -> bool) l :
  (forall x, f x = true -> g x = true) ->
  forallb f l = true -> forallb g l = true.
Proof.
  intros Hfg. induction l as [|x l IH]; simpl; [reflexivity|].
  intros H. apply andb_prop in H as [Hx H].
  now rewrite (Hfg x Hx), IH.
Qed.

(** Characters that are no letters and no digits, before the first
    word, count for nothing. *)
Lemma countWords_leading leading text :
  forallb (fun c => negb (isLetterOrNumber c)) leading = true ->
  countWords (leading ++ text) = countWords text.
Proof.
  intros H. rewrite !countWords_outputs. unfold scan.
  rewrite scanFrom_app, <- outputs_scanFrom_forget.
  now rewrite (scanFrom_no_letter leading init eq_refl H).
Qed.

Lemma countWords_trimmed_text text :
  (forall c, isSpace c = true -> isLetterOrNumber c = false) ->
  countWords (trimmed text) = countWords text.
Proof.
  intros Hspace.
  destruct (trimmed_split text) as [l [t [E [Hl [Ht _]]]]].
  rewrite E at 2. rewrite countWords_leading.
  - rewrite !countWords_outputs. unfold scan.
    rewrite scanFrom_app. symmetry. apply outputs_trailing_spaces.
    apply (forallb_weaken isSpace); [|exact Ht].
    intros c Hc. now rewrite (Hspace c Hc), Hc.
  - apply (forallb_weaken isSpace); [|exact Hl].
    intros c Hc. now rewrite (Hspace c Hc).
Qed.

Lemma nonBlank_false text : nonBlank text = false -> trimmed text = [].
Proof.
  unfold nonBlank, qlength. intros H.
  destruct (trimmed text); [reflexivity|].
  apply Z.ltb_ge in H. simpl in H. lia.
Qed.

Lemma countWords_blank text :
  (forall c, isSpace c = true -> isLetterOrNumber c = false) ->
  nonBlank text = false -> countWords text = (0, 0, 0).
Proof.
  intros Hspace H.
  now rewrite <- (countWords_trimmed_text text Hspace), (nonBlank_false text H).
Qed.

(** X6: where no white space character is a letter or digit,
    [countWords] gives the same outputs on a text and on the text
    without its leading and trailing white space; a text of white space
    only has no word; and characters that are not letters or digits, put
    in front of the text, change nothing. *)
Theorem countWords_trimmed (text : QString) :
  (forall c, isSpace c = true -> isLetterOrNumber c = false) ->
  countWords (trimmed text) = countWords text
  /\ (nonBlank text = false -> countWords text = (0, 0, 0))
  /\ (forall leading,
        forallb (fun c => negb (isLetterOrNumber c)) leading = true ->
        countWords (leading ++ text) = countWords text).
Proof.
  intros Hspace. split; [|split].
  - now apply countWords_trimmed_text.
  - now apply countWords_blank.
  - intros leading. apply countWords_leading.
Qed.

(** ** More on the sentence counter *)

Lemma dropSpaces_idempotent s : dropSpaces (dropSpaces s) = dropSpaces s.
Proof.
  induction s as [|c s IH]; simpl; [reflexivity|].
  destruct (isSpace c) eqn:E; [exact IH | simpl; now rewrite E].
Qed.

Lemma trimmed_idempotent s : trimmed (trimmed s) = trimmed s.
Proof.
  unfold trimmed.
  set (u := dropSpaces s). set (v := dropSpaces (rev u)).
  assert (dropSpaces (rev v) = rev v) as ->.
  { destruct (rev v) as [|c t] eqn:E; [reflexivity|].
    destruct (dropSpaces_split (rev u)) as [p [Hp _]]. fold v in Hp.
    apply (f_equal (@rev QChar)) in Hp.
    rewrite rev_involutive, rev_app_distr, E in Hp.
    simpl. now rewrite (dropSpaces_head s c (t ++ rev p)). }
  rewrite rev_involutive. unfold v. now rewrite dropSpaces_idempotent.
Qed.

Lemma trimmed_length s : qlength (trimmed s) <= qlength s.
Proof.
  destruct (trimmed_split s) as [l [t [E _]]].
  rewrite E at 2. unfold qlength. rewrite !length_app. lia.
Qed.

(** X7: trimming a text twice is trimming it once, and [countSentences]
    and the test for a non-blank paragraph give the same answer on a
    text and on its trimmed form; a text of white space only has no
    sentence, whatever the boundary finder would answer. *)
Theorem countSentences_trimmed (text : QString) :
  trimmed (trimmed text) = trimmed text
  /\ countSentences (trimmed text) = countSentences text
  /\ nonBlank (trimmed text) = nonBlank text
  /\ (nonBlank text = false -> countSentences text = Some 0).
Proof.
  unfold countSentences, nonBlank. rewrite trimmed_idempotent.
  repeat split. now intros ->.
Qed.

Lemma finderRises_ends len : forall answers oldPos,
  finderRises len oldPos answers = true -> finderEnds len answers = true.
Proof.
  induction answers as [|answer answers IH]; intros oldPos H; simpl in *;
    [discriminate|].
  destruct (answer <? 0); [reflexivity|]. simpl in *.
  apply andb_prop in H as [H Hrest]. apply andb_prop in H as [_ Hle].
  now rewrite Hle, (IH answer Hrest).
Qed.

(** With a finder whose answers rise, every counted step takes a
    character of its own. *)
Lemma boundarySteps_counted t : forall answers oldPos,
  0 <= oldPos <= qlength t ->
  finderRises (qlength t) oldPos answers = true ->
  Z.of_nat
    (length (List.filter (fun step => countsAsSentence (segment t step))
                         (boundarySteps oldPos answers)))
  <= qlength t - oldPos.
Proof.
  induction answers as [|answer answers IH]; intros oldPos Hold H;
    [discriminate|].
  simpl in H. cbn [boundarySteps List.filter].
  destruct (Z.ltb_spec answer 0) as [Hneg|Hpos].
  - assert (segment t (oldPos, answer) = []) as ->.
    { unfold segment. simpl.
      now replace (Z.to_nat (answer - oldPos)) with 0%nat by lia. }
    change (countsAsSentence []) with false. simpl. lia.
  - simpl in H. apply andb_prop in H as [H Hrest].
    apply andb_prop in H as [Hlt Hle].
    apply Z.ltb_lt in Hlt. apply Z.leb_le in Hle.
    specialize (IH answer ltac:(lia) Hrest).
    destruct (countsAsSentence (segment t (oldPos, answer))); cbn [length]; lia.
Qed.

(** X8: when the boundary finder answers with strictly rising positions
    inside the trimmed text and then with a negative number,
    [countSentences] returns, and its result lies between 0 and the
    number of characters of the trimmed text, which is at most the
    number of characters of the text. *)
Theorem countSentences_at_most_characters (text : QString) :
  finderRises (qlength (trimmed text)) 0 (sentenceBoundaries (trimmed text))
  = true ->
  exists n,
    countSentences text = Some n
    /\ 0 <= n <= qlength (trimmed text)
    /\ qlength (trimmed text) <= qlength text.
Proof.
  intros H. unfold countSentences. cbv zeta.
  pose proof (trimmed_length text) as Hlen.
  destruct (Z.ltb_spec 0 (qlength (trimmed text))) as [Hpos|Hzero].
  - rewrite sentenceLoop_counts
      by (eauto using finderRises_ends; unfold qlength; lia).
    eexists. split; [reflexivity|].
    pose proof (boundarySteps_counted (trimmed text) _ 0 ltac:(lia) H). lia.
  - exists 0. split; [reflexivity | unfold qlength in *; lia].
Qed.

(** ** More on the aggregation engine *)

Lemma map_text_only {A} (g : Block.t -> A) (doc1 doc2 : MarkdownDocument) :
  (forall b, g b = g (ofText (Block.text b))) ->
  map Block.text doc1 = map Block.text doc2 ->
  map g doc1 = map g doc2.
Proof.
  intros Hg H.
  assert (forall doc : MarkdownDocument,
            map g doc = map (fun t => g (ofText t)) (map Block.text doc)) as E.
  { intros doc. rewrite map_map. apply map_ext. exact Hg. }
  now rewrite (E doc1), (E doc2), H.
Qed.

Lemma nonBlankParagraphs_texts (doc : MarkdownDocument) :
  nonBlankParagraphs doc
  = Z.of_nat (length (List.filter nonBlank (map Block.text doc))).
Proof.
  unfold nonBlankParagraphs. f_equal.
  induction doc as [|b doc IH]; cbn [map List.filter]; [reflexivity|].
  destruct (nonBlank (Block.text b)); cbn [length]; now rewrite IH.
Qed.

(** A pass reads the texts of the paragraphs and nothing else of the
    state, the field [totalWordCount] apart, which it keeps. *)
Lemma visited_texts d1 d2 :
  map Block.text (document d1) = map Block.text (document d2) ->
  totalWordCount d1 = totalWordCount d2 ->
  visited d1 (document d1) [] = visited d2 (document d2) [].
Proof.
  intros Htexts Htotal. unfold visited.
  rewrite Htotal, !nonBlankParagraphs_texts, Htexts.
  rewrite (map_text_only refreshed _ _ (fun b => eq_refl) Htexts).
  rewrite (map_text_only (fun b => TextBlockData.wordCount (entryOf b))
             _ _ (fun b => eq_refl) Htexts).
  rewrite (map_text_only
             (fun b => TextBlockData.alphaNumericCharacterCount (entryOf b))
             _ _ (fun b => eq_refl) Htexts).
  rewrite (map_text_only (fun b => TextBlockData.sentenceCount (entryOf b))
             _ _ (fun b => eq_refl) Htexts).
  now rewrite (map_text_only
                 (fun b => TextBlockData.lixLongWordCount (entryOf b))
                 _ _ (fun b => eq_refl) Htexts).
Qed.

Lemma finderEndsOn_texts (doc1 doc2 : MarkdownDocument) :
  map Block.text doc1 = map Block.text doc2 ->
  Forall finderEndsOn doc1 -> Forall finderEndsOn doc2.
Proof.
  intros Htexts H.
  assert (forall doc : MarkdownDocument,
            Forall finderEndsOn doc
            <-> Forall (fun t => finderEndsOn (ofText t)) (map Block.text doc))
    as E by (intros doc; symmetry; apply List.Forall_map).
  apply E. rewrite <- Htexts. now apply E.
Qed.

(** X10: [onTextChanged] reads the texts of the paragraphs and the
    total word count, and nothing else: two states that agree on these,
    whatever their cached entries, their other counters and the
    arguments of the call, end in the same state and publish the same
    values (the boundary finder coming to an end on every paragraph). *)
Theorem onTextChanged_reads_texts_only
    (position charsRemoved charsAdded position' charsRemoved' charsAdded' : Z)
    (d1 d2 : Stats.t) :
  map Block.text (document d1) = map Block.text (document d2) ->
  totalWordCount d1 = totalWordCount d2 ->
  Forall finderEndsOn (document d1) ->
  exists d' out,
    onTextChanged position charsRemoved charsAdded d1 = Some (tt, d', out)
    /\ onTextChanged position' charsRemoved' charsAdded' d2
       = Some (tt, d', out).
Proof.
  intros Htexts Htotal Hends.
  exists (withDerived (visited d1 (document d1) [])),
         (batchOf (visited d1 (document d1) [])).
  split; [now apply onTextChanged_run|].
  rewrite (visited_texts d1 d2 Htexts Htotal).
  apply onTextChanged_run. exact (finderEndsOn_texts _ _ Htexts Hends).
Qed.

Lemma withDerived_texts d :
  map Block.text (document (withDerived (visited d (document d) [])))
  = map Block.text (document d)
  /\ totalWordCount (withDerived (visited d (document d) []))
     = totalWordCount d.
Proof.
  unfold withDerived, visited. cbn [document totalWordCount].
  now rewrite app_nil_r, refreshed_texts.
Qed.

(** X11: running [onTextChanged] a second time, on the state the first
    run left and with any arguments, leaves that state as it is and
    publishes the same values again (the boundary finder coming to an
    end on every paragraph). *)
Theorem onTextChanged_idempotent
    (position charsRemoved charsAdded position' charsRemoved' charsAdded' : Z)
    (d : Stats.t) :
  Forall finderEndsOn (document d) ->
  exists d' out,
    onTextChanged position charsRemoved charsAdded d = Some (tt, d', out)
    /\ onTextChanged position' charsRemoved' charsAdded' d'
       = Some (tt, d', out).
Proof.
  intros Hends.
  set (d' := withDerived (visited d (document d) [])).
  destruct (withDerived_texts d) as [Htexts Htotal]. fold d' in Htexts, Htotal.
  exists d', (batchOf (visited d (document d) [])).
  split; [now apply onTextChanged_run|].
  rewrite onTextChanged_run
    by (apply (finderEndsOn_texts (document d)); [now symmetry | exact Hends]).
  now rewrite (visited_texts d' d Htexts Htotal).
Qed.

(** X12: after a recomputation [onTextDeselected] publishes the values
    of the recomputation again and leaves the state as it is, also when
    a selection was reported in between (the boundary finder coming to
    an end on every paragraph). *)
Theorem onTextDeselected_republishes
    (position charsRemoved charsAdded : Z) (d : Stats.t) :
  Forall finderEndsOn (document d) ->
  exists d' out,
    onTextChanged position charsRemoved charsAdded d = Some (tt, d', out)
    /\ onTextDeselected d' = Some (tt, d', out)
    /\ (forall selectedText selectionStart selectionEnd d'' out',
          onTextSelected selectedText selectionStart selectionEnd d'
          = Some (tt, d'', out') ->
          onTextDeselected d'' = Some (tt, d', out)).
Proof.
  intros Hends.
  exists (withDerived (visited d (document d) [])),
         (batchOf (visited d (document d) [])).
  split; [now apply onTextChanged_run|].
  split; [reflexivity|].
  intros selectedText selectionStart selectionEnd d'' out' H.
  destruct (onTextSelected_inv _ _ _ _ _ _ _ H) as [n [p [_ [_ [-> _]]]]].
  reflexivity.
Qed.

(** A blank paragraph has an all-zero cache entry. *)
Lemma entryOf_blank b :
  (forall c, isSpace c = true -> isLetterOrNumber c = false) ->
  nonBlank (Block.text b) = false ->
  entryOf b = TextBlockData.mk 0 0 0 0.
Proof.
  intros Hspace H. unfold entryOf, refreshed, countSentences.
  rewrite (countWords_blank _ Hspace H), (nonBlank_false _ H). reflexivity.
Qed.

Lemma sumZ_zero {A} (f : A -> Z) l :
  Forall (fun x => f x = 0) l -> sumZ (map f l) = 0.
Proof.
  unfold sumZ. induction 1 as [|x l Hx _ IH]; cbn [map fold_right]; lia.
Qed.

Lemma filter_length_zero {A} (f : A -> bool) l :
  length (List.filter f l) = 0%nat <-> Forall (fun x => f x = false) l.
Proof.
  induction l as [|x l IH]; simpl; [split; [constructor | reflexivity]|].
  destruct (f x) eqn:E; simpl.
  - split; [discriminate|]. intros H. inversion H; congruence.
  - rewrite IH. split; [now constructor | intros H; now inversion H].
Qed.

(** The state of a pass over blank paragraphs: no word, no sentence, no
    paragraph. *)
Lemma visited_blank d (doc : MarkdownDocument) :
  (forall c, isSpace c = true -> isLetterOrNumber c = false) ->
  Forall (fun b => nonBlank (Block.text b) = false) doc ->
  visited d doc []
  = Stats.mk (map refreshed doc ++ []) 0 (totalWordCount d) 0 0 0 0 0 0.
Proof.
  intros Hspace Hblank. unfold visited.
  assert (Forall (fun b => entryOf b = TextBlockData.mk 0 0 0 0) doc) as He.
  { eapply Forall_impl; [|exact Hblank].
    intros b Hb. now apply entryOf_blank. }
  rewrite !sumZ_zero;
    try (eapply Forall_impl; [|exact He]; intros b ->; reflexivity).
  unfold nonBlankParagraphs.
  now rewrite (proj2 (filter_length_zero _ doc) Hblank).
Qed.

(** X13: on a document whose paragraphs are all blank, the handler of
    the document's [cleared] signal and [onTextChanged] publish the same
    values: zero for every statistic, and the document's character
    count minus one; the handler leaves the document as it is (no white
    space character being a letter or digit, and the boundary finder
    coming to an end on every paragraph). *)
Theorem onCleared_agrees_with_recompute
    (position charsRemoved charsAdded : Z) (d : Stats.t) :
  (forall c, isSpace c = true -> isLetterOrNumber c = false) ->
  Forall (fun b => nonBlank (Block.text b) = false) (document d) ->
  Forall finderEndsOn (document d) ->
  exists d0 d' out,
    onCleared d = Some (tt, d0, out)
    /\ onTextChanged position charsRemoved charsAdded d = Some (tt, d', out)
    /\ document d0 = document d
    /\ out = [wordCountChanged 0; totalWordCountChanged 0;
              characterCountChanged
                (Document.characterCount (document d) - 1);
              sentenceCountChanged 0; paragraphCountChanged 0;
              pageCountChanged 0; complexWordsChanged 0;
              readingTimeChanged 0; lixReadingEaseChanged 0;
              readabilityIndexChanged 0].
Proof.
  intros Hspace Hblank Hends.
  eexists _, _, _. split; [reflexivity|]. split; [|split; reflexivity].
  rewrite onTextChanged_run by exact Hends.
  rewrite (visited_blank d _ Hspace Hblank).
  unfold batchOf. cbn [document wordCount sentenceCount paragraphCount
                       lixLongWordCount wordCharacterCount].
  now rewrite app_nil_r, refreshed_characterCount.
Qed.

(** X14: where no white space character is a letter or digit, a
    recomputation that finds no non-blank paragraph finds no word, no
    sentence, no word character and no long word (the boundary finder
    coming to an end on every paragraph). *)
Theorem onTextChanged_no_paragraph_no_word
    (position charsRemoved charsAdded : Z) (d : Stats.t) :
  (forall c, isSpace c = true -> isLetterOrNumber c = false) ->
  Forall finderEndsOn (document d) ->
  exists d' out,
    onTextChanged position charsRemoved charsAdded d = Some (tt, d', out)
    /\ (DocumentStatistics.paragraphCount d' = 0 ->
        DocumentStatistics.wordCount d' = 0
        /\ DocumentStatistics.sentenceCount d' = 0
        /\ wordCharacterCount d' = 0 /\ lixLongWordCount d' = 0).
Proof.
  intros Hspace Hends.
  exists (withDerived (visited d (document d) [])),
         (batchOf (visited d (document d) [])).
  split; [now apply onTextChanged_run|].
  unfold DocumentStatistics.paragraphCount, DocumentStatistics.wordCount,
    DocumentStatistics.sentenceCount, withDerived.
  cbn [paragraphCount wordCount sentenceCount wordCharacterCount
       lixLongWordCount].
  intros Hzero.
  assert (Forall (fun b => nonBlank (Block.text b) = false) (document d))
    as Hblank.
  { apply filter_length_zero. unfold visited in Hzero.
    cbn [paragraphCount] in Hzero. unfold nonBlankParagraphs in Hzero. lia. }
  rewrite (visited_blank d _ Hspace Hblank). repeat split.
Qed.

Lemma sentenceLoop_grows t : forall answers oldPos count r,
  sentenceLoop t answers oldPos count = Some r -> count <= r.
Proof.
  induction answers as [|answer answers IH]; intros oldPos count r; simpl.
  - destruct (oldPos <? 0); [|discriminate]. intros [= <-]. lia.
  - destruct (oldPos <? 0); [intros [= <-]; lia|].
    destruct (1 <? answer - oldPos); [intros H; apply IH in H; lia|].
    destruct (0 <? answer - oldPos); [|apply IH].
    destruct (charAt t oldPos) as [c|]; [|discriminate].
    destruct (isSpace c); intros H; apply IH in H; lia.
Qed.

(** The counts of one paragraph, in order. *)
Lemma entryOf_in_range b :
  let e := entryOf b in
  0 <= TextBlockData.lixLongWordCount e <= TextBlockData.wordCount e
  /\ TextBlockData.wordCount e <= TextBlockData.alphaNumericCharacterCount e
  /\ TextBlockData.alphaNumericCharacterCount e + 1 <= Document.blockLength b
  /\ 0 <= TextBlockData.sentenceCount e.
Proof.
  pose proof (countWords_bounded (Block.text b)) as Hb.
  pose proof (closeLastWord_tallies _ _ (scan_scanned (Block.text b))
                (scan_tallied (Block.text b))) as Ht.
  assert (0 <= default 0 (countSentences (Block.text b))) as Hs.
  { unfold countSentences. cbv zeta.
    destruct (0 <? qlength (trimmed (Block.text b))); [|simpl; lia].
    destruct (sentenceLoop _ _ 0 0) as [r|] eqn:E; simpl; [|lia].
    apply sentenceLoop_grows in E. exact E. }
  unfold entryOf, refreshed, Document.blockLength.
  generalize dependent (default 0 (countSentences (Block.text b))).
  intros n Hn. unfold countWords in *. cbv zeta in *. simpl. lia.
Qed.

Lemma visited_in_range d (doc : MarkdownDocument) :
  let v := visited d doc [] in
  0 <= lixLongWordCount v <= wordCount v
  /\ wordCount v <= wordCharacterCount v
  /\ wordCharacterCount v + Z.of_nat (length doc) <= Document.characterCount doc
  /\ 0 <= sentenceCount v
  /\ 0 <= paragraphCount v <= Z.of_nat (length doc).
Proof.
  unfold visited.
  cbn [lixLongWordCount wordCount wordCharacterCount sentenceCount
       paragraphCount].
  unfold sumZ, Document.characterCount, nonBlankParagraphs.
  induction doc as [|b doc IH]; cbn [map fold_right List.filter length];
    [lia|].
  pose proof (entryOf_in_range b) as Hb. cbv zeta in Hb.
  destruct (nonBlank (Block.text b)); cbn [length]; lia.
Qed.

(** X15: after a recomputation, the boundary finder coming to an end on
    every paragraph, the counters are in range: the long
    words are at most the words, the words at most the word characters,
    the word characters and one separator for each paragraph at most
    the document's characters; the paragraph count is at most the number
    of paragraphs; the reading time is at most the page count, which is
    the number of full pages of 250 words; nothing is negative, and the
    total word count is left as it was. *)
Theorem onTextChanged_counters_in_range
    (position charsRemoved charsAdded : Z) (d : Stats.t) :
  Forall finderEndsOn (document d) ->
  exists d' out,
    onTextChanged position charsRemoved charsAdded d = Some (tt, d', out)
    /\ 0 <= lixLongWordCount d' <= wordCount d'
    /\ wordCount d' <= wordCharacterCount d'
    /\ wordCharacterCount d' + Z.of_nat (length (document d'))
       <= Document.characterCount (document d')
    /\ 0 <= sentenceCount d'
    /\ 0 <= paragraphCount d' <= Z.of_nat (length (document d'))
    /\ 0 <= readTimeMinutes d' <= pageCount d'
    /\ 250 * pageCount d' <= wordCount d' < 250 * pageCount d' + 250
    /\ totalWordCount d' = totalWordCount d.
Proof.
  intros Hends.
  exists (withDerived (visited d (document d) [])),
         (batchOf (visited d (document d) [])).
  split; [now apply onTextChanged_run|].
  pose proof (visited_in_range d (document d)) as H. cbv zeta in H.
  unfold withDerived.
  cbn [lixLongWordCount wordCount wordCharacterCount sentenceCount
       paragraphCount readTimeMinutes pageCount totalWordCount document].
  assert (document (visited d (document d) []) = map refreshed (document d))
    as -> by (unfold visited; cbn [document]; apply app_nil_r).
  rewrite refreshed_characterCount, length_map.
  set (w := wordCount (visited d (document d) [])) in *.
  assert (0 <= w) by lia.
  unfold calculatePageCount, calculateReadingTime.
  rewrite !Z.quot_div_nonneg by lia.
  pose proof (Z.div_le_compat_l w 250 270 ltac:(lia) ltac:(lia)).
  pose proof (Z.div_pos w 270 ltac:(lia) ltac:(lia)).
  pose proof (Z.mul_div_le w 250 ltac:(lia)).
  pose proof (Z.mul_succ_div_gt w 250 ltac:(lia)).
  repeat split; lia.
Qed.

Lemma characterCount_length (doc : MarkdownDocument) :
  Z.of_nat (length doc) <= Document.characterCount doc.
Proof.
  unfold Document.characterCount.
  induction doc as [|b doc IH]; cbn [fold_right length]; [lia|].
  pose proof (blockLength_pos b). lia.
Qed.

Lemma blockPosition_all (doc : MarkdownDocument) :
  blockPosition doc (length doc) = Document.characterCount doc.
Proof. unfold blockPosition. now rewrite take_ge. Qed.

(** Every paragraph holds a position of the range that spans the
    document. *)
Lemma overlapsSelection_whole (doc : MarkdownDocument) i b :
  doc !! i = Some b ->
  overlapsSelection doc 0 (Document.characterCount doc - 1) i = true.
Proof.
  intros Hi. unfold overlapsSelection. rewrite Hi.
  rewrite <- (blockPosition_S _ _ _ Hi).
  pose proof (lookup_lt_Some _ _ _ Hi) as Hlt.
  pose proof (blockPosition_mono doc 0 i ltac:(lia)) as H0.
  pose proof (blockPosition_mono doc (S i) (length doc) ltac:(lia)) as H1.
  rewrite blockPosition_all in H1.
  rewrite (blockPosition_S _ _ _ Hi) in *.
  pose proof (blockLength_pos b).
  change (blockPosition doc 0) with 0 in H0.
  apply andb_true_intro. split; [apply Z.leb_le | apply Z.ltb_lt]; lia.
Qed.

Lemma filter_indices (f : Block.t -> bool) (doc : MarkdownDocument) :
  length (List.filter
            (fun i => match doc !! i with Some b => f b | None => false end)
            (seq 0 (length doc)))
  = length (List.filter f doc).
Proof.
  induction doc as [|b doc IH] using rev_ind; [reflexivity|].
  rewrite length_app, Nat.add_1_r, seq_S, !filter_app, !length_app.
  cbn [List.filter Nat.add].
  rewrite list_lookup_middle by reflexivity.
  rewrite <- IH. f_equal; [|now destruct (f b)].
  f_equal. apply filter_ext_in. intros i Hi. apply in_seq in Hi.
  now rewrite lookup_app_l by lia.
Qed.

(** When every paragraph has a cache entry, a selection that spans the
    document counts the paragraphs a pass counts. *)
Lemma selectedParagraphs_whole (doc : MarkdownDocument) :
  Forall (fun b => exists data, Block.userData b = Some data) doc ->
  selectedParagraphs doc 0 (Document.characterCount doc - 1)
  = nonBlankParagraphs doc.
Proof.
  intros Hentries. unfold selectedParagraphs, nonBlankParagraphs. f_equal.
  rewrite <- (filter_indices (fun b => nonBlank (Block.text b)) doc).
  f_equal. apply filter_ext_in. intros i Hi. apply in_seq in Hi.
  unfold cachedAndNonBlank.
  destruct (doc !! i) as [b|] eqn:E; [|apply andb_false_r].
  rewrite (overlapsSelection_whole doc i b E).
  rewrite Forall_forall in Hentries.
  destruct (Hentries b) as [data ->];
    [apply list_elem_of_In, list_elem_of_lookup; eauto | reflexivity].
Qed.

Lemma refreshed_has_entry (doc : MarkdownDocument) :
  Forall (fun b => exists data, Block.userData b = Some data)
         (map refreshed doc).
Proof.
  apply List.Forall_map, Forall_forall. intros b _. unfold refreshed.
  destruct (countWords (Block.text b)) as [[w l] a]. eauto.
Qed.

(** X16: after a recomputation of a document that is not empty, a
    selection that spans the whole document publishes the paragraph
    count the recomputation published, the number of non-blank
    paragraphs, and leaves the state as it is (the boundary finder
    coming to an end on every paragraph and on the selected text). *)
Theorem onTextSelected_whole_document
    (position charsRemoved charsAdded : Z) (selectedText : QString)
    (d : Stats.t) :
  Forall finderEndsOn (document d) ->
  document d <> [] ->
  finderEnds (qlength (trimmed selectedText))
    (sentenceBoundaries (trimmed selectedText)) = true ->
  exists d' out out',
    onTextChanged position charsRemoved charsAdded d = Some (tt, d', out)
    /\ onTextSelected selectedText 0
         (Document.characterCount (document d') - 1) d'
       = Some (tt, d', out')
    /\ publishedParagraphCount out' = publishedParagraphCount out
    /\ publishedParagraphCount out = [nonBlankParagraphs (document d)].
Proof.
  intros Hends Hdoc Hfinder.
  destruct (countSentences_returns _ Hfinder) as [n Hn].
  set (d' := withDerived (visited d (document d) [])).
  assert (document d' = map refreshed (document d)) as Hd'
    by (unfold d', withDerived, visited; cbn [document]; apply app_nil_r).
  assert (0 < Document.characterCount (document d')) as Hpos.
  { rewrite Hd', refreshed_characterCount.
    pose proof (characterCount_length (document d)) as H.
    assert (0 < length (document d))%nat
      by (destruct (document d); [congruence | simpl; lia]).
    lia. }
  pose proof (selectedLoop_selectedParagraphs (document d') 0
                (Document.characterCount (document d') - 1)
                ltac:(lia) ltac:(lia)) as Hp.
  exists d', (batchOf (visited d (document d) [])),
    (selectionBatch selectedText n
       (selectedParagraphs (document d') 0
          (Document.characterCount (document d') - 1))).
  split; [now apply onTextChanged_run|].
  split; [now apply onTextSelected_run|].
  rewrite selectionBatch_paragraphs.
  rewrite selectedParagraphs_whole by (rewrite Hd'; apply refreshed_has_entry).
  rewrite Hd', refreshed_nonBlank. split; reflexivity.
Qed.

(** ** The accessors and the signals *)

Lemma batchOf_publishesAccessors d :
  publishesAccessors (withDerived d) (batchOf d).
Proof. unfold publishesAccessors, batchOf. eauto. Qed.

(** X17: after each handler that publishes the statistics of the
    document (a deselection, the document's [cleared] signal, and a
    content change on whose paragraphs the boundary finder comes to an
    end) every accessor returns the value its signal has just carried,
    and [totalWordCountChanged] carries the value of
    [wordCountChanged]. *)
Theorem accessors_agree_with_signals
    (position charsRemoved charsAdded : Z) (d : Stats.t) :
  (exists d' out,
     onTextDeselected d = Some (tt, d', out) /\ publishesAccessors d' out)
  /\ (exists d' out,
        onCleared d = Some (tt, d', out) /\ publishesAccessors d' out)
  /\ (Forall finderEndsOn (document d) ->
      exists d' out,
        onTextChanged position charsRemoved charsAdded d = Some (tt, d', out)
        /\ publishesAccessors d' out
        /\ publishedTotalWordCount out = publishedWordCount out).
Proof.
  split; [|split].
  - exists (withDerived d), (batchOf d).
    split; [apply updateStatistics_run | apply batchOf_publishesAccessors].
  - unfold onCleared. eexists _, _. split.
    + slot_step. slot_step. apply updateStatistics_run.
    + apply batchOf_publishesAccessors.
  - intros Hends. eexists _, _. split; [|split].
    + apply onTextChanged_run, Hends.
    + apply batchOf_publishesAccessors.
    + reflexivity.
Qed.

(** X18: a selection event publishes nine signals and
    [totalWordCountChanged] is not among them, while a deselection
    publishes ten, [totalWordCountChanged] among them. *)
Theorem onTextSelected_never_publishes_total
    (selectedText : QString) (selectionStart selectionEnd : Z)
    (d d' : Stats.t) (out : list Signal) :
  onTextSelected selectedText selectionStart selectionEnd d
  = Some (tt, d', out) ->
  length out = 9%nat
  /\ publishedTotalWordCount out = []
  /\ exists d0 out0,
       onTextDeselected d' = Some (tt, d0, out0)
       /\ length out0 = 10%nat
       /\ publishedTotalWordCount out0 = [DocumentStatistics.wordCount d].
Proof.
  intros Hrun.
  destruct (onTextSelected_inv _ _ _ _ _ _ _ Hrun)
    as (sentences & paragraphs & _ & _ & -> & ->).
  unfold selectionBatch. destruct (countWords selectedText) as [[w l] a].
  split; [reflexivity | split; [reflexivity|]].
  exists (withDerived d), (batchOf d).
  split; [apply updateStatistics_run | split; reflexivity].
Qed.

(** ** A text of one sentence *)

Lemma trimmed_head s c rest :
  trimmed s = c :: rest -> isSpace c = false.
Proof.
  unfold trimmed. intros H.
  destruct (dropSpaces_split (rev (dropSpaces s))) as [gniliart [Hr _]].
  apply (f_equal (@rev QChar)) in Hr.
  rewrite rev_involutive, rev_app_distr, H in Hr. simpl in Hr.
  exact (dropSpaces_head s c _ Hr).
Qed.

(** X19: a text that is not blank, on which the boundary finder reports
    one boundary after the start and then a negative number, has
    exactly one sentence; so has a text of a single character. *)
Theorem countSentences_one_boundary (text : QString) (boundary done : Z)
    (rest : list Z) :
  nonBlank text = true ->
  sentenceBoundaries (trimmed text) = boundary :: done :: rest ->
  0 < boundary -> done < 0 ->
  countSentences text = Some 1.
Proof.
  intros Hnonblank Hanswers Hboundary Hdone.
  unfold nonBlank in Hnonblank. unfold countSentences. cbv zeta.
  rewrite Hnonblank, Hanswers.
  assert (exists c, charAt (trimmed text) 0 = Some c /\ isSpace c = false)
    as (c & Hc & Hspace).
  { destruct (trimmed text) as [|c t] eqn:E; [discriminate|].
    exists c. split; [reflexivity | exact (trimmed_head text c t E)]. }
  assert (sentenceLoop (trimmed text) (done :: rest) boundary 1 = Some 1)
    as Hlast.
  { simpl. split_ltb; try lia; destruct rest; simpl; split_ltb; try lia;
      reflexivity. }
  cbn [sentenceLoop]. rewrite Z.sub_0_r.
  change (0 <? 0) with false. cbv iota zeta.
  destruct (Z.ltb_spec 1 boundary); [exact Hlast|].
  destruct (Z.ltb_spec 0 boundary); [|lia].
  rewrite Hc, Hspace. exact Hlast.
Qed.

End Statistics.

(** ** Closed instances and the calculators *)

(** The tokenizer reads the character classes of the characters of the
    text only. *)
Lemma scanFrom_ext (isLetterOrNumber isSpace isLetterOrNumber' isSpace'
    : QChar -> bool) text :
  forall s,
  (forall c, In c text ->
     isLetterOrNumber' c = isLetterOrNumber c /\ isSpace' c = isSpace c) ->
  scanFrom isLetterOrNumber' isSpace' s text
  = scanFrom isLetterOrNumber isSpace s text.
Proof.
  unfold scanFrom.
  induction text as [|c text IH]; intros s H; simpl; [reflexivity|].
  destruct (H c (or_introl eq_refl)) as [Hl Hs].
  assert (scanChar isLetterOrNumber' isSpace' s c
          = scanChar isLetterOrNumber isSpace s c)
    as -> by (unfold scanChar; now rewrite Hl, Hs).
  apply IH. intros c' Hc'. apply H. now right.
Qed.

Lemma countWords_ext (isLetterOrNumber isSpace isLetterOrNumber' isSpace'
    : QChar -> bool) text :
  (forall c, In c text ->
     isLetterOrNumber' c = isLetterOrNumber c /\ isSpace' c = isSpace c) ->
  countWords isLetterOrNumber' isSpace' text
  = countWords isLetterOrNumber isSpace text.
Proof.
  intros H. unfold countWords, scan.
  now rewrite (scanFrom_ext _ _ _ _ _ _ H).
Qed.

Example countWords_hello_world :
  countWords asciiIsLetterOrNumber asciiIsSpace (fromLatin1 "hello world")
  = (2, 0, 10).
Proof. reflexivity. Qed.

(** C1 (as the code has it): for every character classification that
    agrees with Qt's on the characters of "well-known", [countWords]
    answers 1 word, 1 long word and 10 word characters: the hyphen
    absorbed into the word is counted, in the length of the word (10)
    and in the character total. *)
Theorem countWords_well_known (isLetterOrNumber isSpace : QChar -> bool) :
  (forall c, In c (fromLatin1 "well-known") ->
     isLetterOrNumber c = asciiIsLetterOrNumber c
     /\ isSpace c = asciiIsSpace c) ->
  countWords isLetterOrNumber isSpace (fromLatin1 "well-known") = (1, 1, 10)
  /\ WordScan.wordLen
       (closeLastWord (scan isLetterOrNumber isSpace (fromLatin1 "well-known")))
     = 10.
Proof.
  intros H.
  rewrite (countWords_ext _ _ _ _ _ H).
  unfold scan. rewrite (scanFrom_ext _ _ _ _ _ _ H).
  split; reflexivity.
Qed.

Lemma countWords_well_known_ascii :
  countWords asciiIsLetterOrNumber asciiIsSpace (fromLatin1 "well-known")
  = (1, 1, 10)
  /\ WordScan.wordLen
       (closeLastWord
          (scan asciiIsLetterOrNumber asciiIsSpace (fromLatin1 "well-known")))
     = 10.
Proof.
  apply (countWords_well_known asciiIsLetterOrNumber asciiIsSpace).
  intros c _. split; reflexivity.
Defined.

(** The answer for "well-known" is not the (1, 1, 9) of C1. *)
Lemma countWords_well_known_counts_hyphen :
  countWords asciiIsLetterOrNumber asciiIsSpace (fromLatin1 "well-known")
  = (1, 1, 10)
  /\ countWords asciiIsLetterOrNumber asciiIsSpace (fromLatin1 "well-known")
     <> (1, 1, 9).
Proof. split; [reflexivity | discriminate]. Qed.

(** C3: for every character classification that agrees with Qt's on the
    characters of "done--next", [countWords] answers 2 words, no long
    word and 8 word characters.  The first word is closed at the second
    dash with 4 characters counted, and the last word has length 4: no
    dash is counted. *)
Theorem countWords_done_next (isLetterOrNumber isSpace : QChar -> bool) :
  (forall c, In c (fromLatin1 "done--next") ->
     isLetterOrNumber c = asciiIsLetterOrNumber c
     /\ isSpace c = asciiIsSpace c) ->
  countWords isLetterOrNumber isSpace (fromLatin1 "done--next") = (2, 0, 8)
  /\ countWords isLetterOrNumber isSpace (fromLatin1 "done--") = (1, 0, 4)
  /\ WordScan.wordLen
       (closeLastWord (scan isLetterOrNumber isSpace (fromLatin1 "done--next")))
     = 4.
Proof.
  intros H.
  assert (forall c, In c (fromLatin1 "done--") ->
            isLetterOrNumber c = asciiIsLetterOrNumber c
            /\ isSpace c = asciiIsSpace c) as H'.
  { intros c Hc. apply H. simpl in *. tauto. }
  rewrite (countWords_ext _ _ _ _ _ H), (countWords_ext _ _ _ _ _ H').
  unfold scan. rewrite (scanFrom_ext _ _ _ _ _ _ H).
  repeat split; reflexivity.
Qed.

Lemma countWords_done_next_ascii :
  countWords asciiIsLetterOrNumber asciiIsSpace (fromLatin1 "done--next")
  = (2, 0, 8)
  /\ countWords asciiIsLetterOrNumber asciiIsSpace (fromLatin1 "done--")
     = (1, 0, 4)
  /\ WordScan.wordLen
       (closeLastWord
          (scan asciiIsLetterOrNumber asciiIsSpace (fromLatin1 "done--next")))
     = 4.
Proof.
  apply (countWords_done_next asciiIsLetterOrNumber asciiIsSpace).
  intros c _. split; reflexivity.
Defined.

Lemma countWords_never_negative_trailing_dash :
  (let '(w, l, a) :=
     countWords asciiIsLetterOrNumber asciiIsSpace (fromLatin1 "a- b-") in
   0 <= w /\ 0 <= l /\ l <= w /\ 0 <= a)
  /\ countWords asciiIsLetterOrNumber asciiIsSpace [] = (0, 0, 0).
Proof.
  pose proof (countWords_never_negative asciiIsLetterOrNumber asciiIsSpace
                (fromLatin1 "a- b-")) as [H [H0 _]].
  split; [exact H | exact H0].
Defined.

(** ** The readability calculators *)

Example calculatePageCount_examples :
  calculatePageCount 500 = 2 /\ calculatePageCount 249 = 0
  /\ calculateReadingTime 270 = 1 /\ calculateReadingTime 269 = 0.
Proof. repeat split. Qed.

(** The constants of [calculateCLI], as binary64 values. *)
Example cli_literals :
  Real.literal 588 2 = S754_finite false 6620291452234629 (-50)
  /\ Real.literal 296 1 = S754_finite false 8331659310635418 (-48)
  /\ Real.literal 158 1 = S754_finite false 8894609264056730 (-49).
Proof. vm_compute. repeat split. Qed.

(** [(11.0 / 20.0) * 100.0] is the binary64 number after 55. *)
Example long_word_share_rounds_up :
  Real.mul (Real.div (Real.ofInt 11) (Real.ofInt 20)) (Real.ofInt 100)
  = S754_finite false (55 * 2 ^ 47 + 1) (-47).
Proof. vm_compute. reflexivity. Qed.

(** For 20 words, 11 of them long, in 4 sentences the code answers 61;
    the formula of C6 gives 5 + 55 = 60. *)
Lemma calculateLIX_exceeds_formula :
  calculateLIX 20 11 4 = 61 /\ lixExact 20 11 4 = 60.
Proof. vm_compute. split; reflexivity. Qed.

(** C6 (as the code has it): [calculateLIX] is 0 unless there is a word
    and a sentence, and no division is evaluated then; otherwise it is
    the ceiling of the binary64 value of
    totalWords/sentences + (longWords/totalWords)*100, every operation
    rounded to nearest.  That value can lie above the exact one, and the
    result be one more than the exact ceiling, as for (20, 11, 4); for
    texts of at most 30 words it is the exact ceiling or one more. *)
Theorem calculateLIX_binary64 (totalWords longWords sentences : Z) :
  (totalWords <= 0 \/ sentences <= 0 ->
   calculateLIX totalWords longWords sentences = 0)
  /\ (0 < totalWords -> 0 < sentences ->
      calculateLIX totalWords longWords sentences
      = Real.qCeil
          (Real.add
             (Real.div (Real.ofInt totalWords) (Real.ofInt sentences))
             (Real.mul
                (Real.div (Real.ofInt longWords) (Real.ofInt totalWords))
                (Real.ofInt 100))))
  /\ calculateLIX 0 longWords sentences = 0
  /\ lixWithinOne 30 = true.
Proof.
  split; [|split; [|split]].
  - unfold calculateLIX. intros [H | H].
    + destruct (Z.ltb_spec 0 totalWords); [lia | reflexivity].
    + destruct (Z.ltb_spec 0 sentences); [lia|].
      now rewrite andb_false_r.
  - unfold calculateLIX, lixValue. intros Hw Hs.
    destruct (Z.ltb_spec 0 totalWords); [|lia].
    destruct (Z.ltb_spec 0 sentences); [reflexivity | lia].
  - reflexivity.
  - vm_compute. reflexivity.
Qed.

Lemma calculateLIX_binary64_20_11_4 :
  calculateLIX 20 11 4 = 61 /\ calculateLIX 20 11 0 = 0.
Proof.
  destruct (calculateLIX_binary64 20 11 4) as [_ [H _]].
  destruct (calculateLIX_binary64 20 11 0) as [H0 _].
  split.
  - rewrite H by reflexivity. vm_compute. reflexivity.
  - apply H0. right. discriminate.
Defined.

(** C7: [calculateCLI] is 0 when there is no word or no sentence, it is
    never negative, and with a word and a sentence it is the ceiling of
    5.88*(characters/words) - 29.6*(sentences/words) - 15.8 where that is
    not negative and 0 where it is. *)
Theorem calculateCLI_never_negative (characters words sentences : Z) :
  (words = 0 \/ sentences = 0 -> calculateCLI characters words sentences = 0)
  /\ 0 <= calculateCLI characters words sentences
  /\ (0 < words -> 0 < sentences ->
      let cli := Real.qCeil (cliValue characters words sentences) in
      calculateCLI characters words sentences = if cli <? 0 then 0 else cli).
Proof.
  unfold calculateCLI. split; [|split].
  - intros [-> | ->]; [now rewrite andb_false_r | reflexivity].
  - destruct ((0 <? sentences) && (0 <? words)); [|lia].
    destruct (Z.ltb_spec (Real.qCeil (cliValue characters words sentences)) 0);
      lia.
  - intros Hw Hs.
    destruct (Z.ltb_spec 0 sentences); [|lia].
    destruct (Z.ltb_spec 0 words); [reflexivity | lia].
Qed.

(** Ten word characters in two words and one sentence: the value is
    29.4 - 14.8 - 15.8 = -1.2, its ceiling -1, the index 0. *)
Lemma calculateCLI_never_negative_10_2_1 :
  Real.qCeil (cliValue 10 2 1) = -1
  /\ calculateCLI 10 2 1 = 0
  /\ calculateCLI 10 0 1 = 0.
Proof.
  destruct (calculateCLI_never_negative 10 2 1) as [_ [_ H]].
  destruct (calculateCLI_never_negative 10 0 1) as [H0 _].
  split; [vm_compute; reflexivity | split].
  - rewrite H by reflexivity. vm_compute. reflexivity.
  - apply H0. left. reflexivity.
Defined.

(** Two sentences, with the boundaries a Unicode sentence finder gives
    (after "Hello world. " and at the end), and a blank text. *)
Lemma countSentences_counts_steps_hello :
  countSentences asciiIsSpace (fun _ => [13; 25; -1])
    (fromLatin1 "Hello world. How are you?") = Some 2
  /\ countSentences asciiIsSpace (fun _ => [13; 25; -1]) (fromLatin1 "   ")
     = Some 0.
Proof.
  destruct (countSentences_counts_steps asciiIsSpace (fun _ => [13; 25; -1])
              (fromLatin1 "Hello world. How are you?")) as [_ [_ [_ H]]].
  destruct (countSentences_counts_steps asciiIsSpace (fun _ => [13; 25; -1])
              (fromLatin1 "   ")) as [_ [_ [H0 _]]].
  split.
  - rewrite H; [reflexivity | discriminate | reflexivity].
  - apply H0. reflexivity.
Defined.

(** ** The aggregation engine on the example document *)

Example onTextChanged_example :
  onTextChanged asciiIsLetterOrNumber asciiIsSpace wholeTextFinder 0 0 0
    exampleState
  = Some (tt, visitedState,
          [wordCountChanged 6; totalWordCountChanged 6;
           characterCountChanged 31; sentenceCountChanged 2;
           paragraphCountChanged 2; pageCountChanged 0;
           complexWordsChanged 0; readingTimeChanged 0;
           lixReadingEaseChanged 3; readabilityIndexChanged 0]).
Proof. vm_compute. reflexivity. Qed.

Lemma onTextChanged_sums_cache_example :
  exists d' out,
    onTextChanged asciiIsLetterOrNumber asciiIsSpace wholeTextFinder 0 0 0
      exampleState = Some (tt, d', out)
    /\ publishedWordCount out
       = [sumZ (map cachedWordCount (Stats.document d'))]
    /\ publishedParagraphCount out
       = [nonBlankParagraphs asciiIsSpace (Stats.document d')]
    /\ d' = visitedState.
Proof.
  destruct (onTextChanged_sums_cache asciiIsLetterOrNumber asciiIsSpace
              wholeTextFinder 0 0 0 exampleState)
    as (d' & out & Hrun & _ & _ & Hw & _ & Hp & _).
  { repeat constructor. }
  exists d', out. repeat split; try assumption.
  vm_compute in Hrun. now injection Hrun as <- _.
Defined.

(** "quick" selected in a document no pass has visited: one word, no
    paragraph. *)
Lemma onTextSelected_counts_cached_paragraphs_example :
  exists out,
    onTextSelected asciiIsLetterOrNumber asciiIsSpace wholeTextFinder
      (fromLatin1 "quick") 4 9 exampleState = Some (tt, exampleState, out)
    /\ publishedParagraphCount out
       = [selectedParagraphs asciiIsSpace exampleDocument 4 9]
    /\ publishedParagraphCount out = [0].
Proof.
  destruct (onTextSelected_counts_cached_paragraphs asciiIsLetterOrNumber
              asciiIsSpace wholeTextFinder (fromLatin1 "quick") 4 9
              exampleState)
    as (out & Hrun & Hp & H0); [lia | reflexivity | reflexivity |].
  exists out.
  split; [exact Hrun | split; [exact Hp | apply H0; repeat constructor]].
Defined.

(** After a pass the same selection counts its paragraph, and a
    selection over the three paragraphs counts two: the empty one is
    left out. *)
Example selectedParagraphs_visited :
  selectedParagraphs asciiIsSpace visitedDocument 4 9 = 1
  /\ selectedParagraphs asciiIsSpace visitedDocument 0 30 = 2
  /\ selectedParagraphs asciiIsSpace exampleDocument 0 30 = 0.
Proof. vm_compute. repeat split. Qed.

Lemma onTextSelected_keeps_state_example :
  exists d' out,
    onTextSelected asciiIsLetterOrNumber asciiIsSpace wholeTextFinder
      (fromLatin1 "quick") 4 9 visitedState = Some (tt, d', out)
    /\ d' = visitedState
    /\ DocumentStatistics.wordCount d' = 6
    /\ DocumentStatistics.paragraphCount d' = 2.
Proof.
  exists visitedState,
    [wordCountChanged 1; characterCountChanged 5; sentenceCountChanged 1;
     paragraphCountChanged 1; pageCountChanged 0; complexWordsChanged 0;
     readingTimeChanged 0; lixReadingEaseChanged 1;
     readabilityIndexChanged 0].
  assert (onTextSelected asciiIsLetterOrNumber asciiIsSpace wholeTextFinder
            (fromLatin1 "quick") 4 9 visitedState
          = Some (tt, visitedState,
                  [wordCountChanged 1; characterCountChanged 5;
                   sentenceCountChanged 1; paragraphCountChanged 1;
                   pageCountChanged 0; complexWordsChanged 0;
                   readingTimeChanged 0; lixReadingEaseChanged 1;
                   readabilityIndexChanged 0])) as Hrun
    by (vm_compute; reflexivity).
  destruct (onTextSelected_keeps_state asciiIsLetterOrNumber asciiIsSpace
              wholeTextFinder _ _ _ _ _ _ Hrun) as (Hd & _).
  split; [exact Hrun | split; [exact Hd | split; reflexivity]].
Defined.

(** On a selection event the published character count is the length of
    the selection (5 for "quick"), not the 31 of the document. *)
Lemma onTextSelected_publishes_selection_length :
  exists out,
    onTextSelected asciiIsLetterOrNumber asciiIsSpace wholeTextFinder
      (fromLatin1 "quick") 4 9 visitedState = Some (tt, visitedState, out)
    /\ publishedCharacterCount out = [5]
    /\ Document.characterCount visitedDocument - 1 = 31.
Proof.
  eexists. split; [vm_compute; reflexivity|]. split; reflexivity.
Qed.

Lemma characterCount_published_example :
  DocumentStatistics.characterCount visitedState = 31
  /\ publishedCharacterCount (batchOf visitedState) = [31]
  /\ (exists d' out,
        onTextChanged asciiIsLetterOrNumber asciiIsSpace wholeTextFinder 0 0 0
          visitedState = Some (tt, d', out)
        /\ publishedCharacterCount out
           = [DocumentStatistics.characterCount visitedState]
        /\ DocumentStatistics.characterCount d'
           = DocumentStatistics.characterCount visitedState).
Proof.
  destruct (characterCount_published asciiIsLetterOrNumber asciiIsSpace
              wholeTextFinder visitedState)
    as (Hacc & (d1 & _ & _ & Hbatch) & _ & Hchanged & _).
  split; [rewrite Hacc; reflexivity|].
  split; [rewrite Hbatch, Hacc; reflexivity|].
  apply (Hchanged 0 0 0). repeat constructor.
Defined.

(** ** More closed instances *)

(** X9: for a word count that is not negative the page count is the
    number of full pages of 250 words and the reading time the number of
    full minutes of 270 words; the reading time is at most the page
    count, and neither decreases when the word count grows. *)
Theorem calculatePageCount_floor (words : Z) :
  0 <= words ->
  250 * calculatePageCount words <= words < 250 * calculatePageCount words + 250
  /\ 270 * calculateReadingTime words <= words
     < 270 * calculateReadingTime words + 270
  /\ 0 <= calculateReadingTime words <= calculatePageCount words
  /\ (forall more, words <= more ->
        calculatePageCount words <= calculatePageCount more
        /\ calculateReadingTime words <= calculateReadingTime more).
Proof.
  intros Hw. unfold calculatePageCount, calculateReadingTime.
  rewrite !Z.quot_div_nonneg by lia.
  pose proof (Z.div_le_compat_l words 250 270 ltac:(lia) ltac:(lia)).
  pose proof (Z.div_pos words 270 ltac:(lia) ltac:(lia)).
  pose proof (Z.mul_div_le words 250 ltac:(lia)).
  pose proof (Z.mul_succ_div_gt words 250 ltac:(lia)).
  pose proof (Z.mul_div_le words 270 ltac:(lia)).
  pose proof (Z.mul_succ_div_gt words 270 ltac:(lia)).
  repeat split; try lia;
    rewrite !Z.quot_div_nonneg by lia; apply Z.div_le_mono; lia.
Qed.

Lemma calculatePageCount_floor_500 :
  (250 * 2 <= 500 < 250 * 2 + 250)
  /\ calculatePageCount 500 = 2 /\ calculateReadingTime 500 = 1.
Proof.
  destruct (calculatePageCount_floor 500 ltac:(lia)) as [H _].
  split; [exact H | split; reflexivity].
Defined.

(** On ASCII no white space character is a letter or a digit. *)
Lemma asciiIsSpace_not_letter c :
  asciiIsSpace c = true -> asciiIsLetterOrNumber c = false.
Proof.
  unfold asciiIsSpace, asciiIsLetterOrNumber.
  destruct c as [|p]; [reflexivity|]. cbv zeta.
  generalize (Z.pos p). intros z H.
  rewrite orb_true_iff, andb_true_iff, !Z.leb_le, Z.eqb_eq in H.
  rewrite !orb_false_iff, !andb_false_iff, !Z.leb_gt. lia.
Qed.

Lemma countWords_letters_statistics :
  countWords asciiIsLetterOrNumber asciiIsSpace (fromLatin1 "statistics")
  = (1, 1, 10).
Proof.
  apply (countWords_letters asciiIsLetterOrNumber asciiIsSpace 115%N
           (fromLatin1 "tatistics")).
  reflexivity.
Defined.

Lemma countWords_single_separator_well_known :
  countWords asciiIsLetterOrNumber asciiIsSpace (fromLatin1 "well-known")
  = (1, 1, 10)
  /\ countWords asciiIsLetterOrNumber asciiIsSpace (fromLatin1 "well-")
     = (1, 0, 4).
Proof.
  apply (countWords_single_separator asciiIsLetterOrNumber asciiIsSpace
           119%N 107%N 45%N (fromLatin1 "ell") (fromLatin1 "nown"));
    reflexivity.
Defined.

Lemma countWords_double_separator_done_next :
  countWords asciiIsLetterOrNumber asciiIsSpace (fromLatin1 "done--next")
  = (2, 0, 8).
Proof.
  apply (countWords_double_separator asciiIsLetterOrNumber asciiIsSpace
           100%N 110%N 45%N 45%N (fromLatin1 "one") (fromLatin1 "ext"));
    reflexivity.
Defined.

Lemma countWords_space_adds_hello_world :
  countWords asciiIsLetterOrNumber asciiIsSpace (fromLatin1 "hello world")
  = plusCounts
      (countWords asciiIsLetterOrNumber asciiIsSpace (fromLatin1 "hello"))
      (countWords asciiIsLetterOrNumber asciiIsSpace (fromLatin1 "world")).
Proof.
  apply (countWords_space_adds asciiIsLetterOrNumber asciiIsSpace 32%N
           (fromLatin1 "hello") (fromLatin1 "world"));
    reflexivity.
Defined.

Lemma countWords_trimmed_padded :
  countWords asciiIsLetterOrNumber asciiIsSpace
    (trimmed asciiIsSpace (fromLatin1 "  It jumps. "))
  = countWords asciiIsLetterOrNumber asciiIsSpace (fromLatin1 "  It jumps. ")
  /\ countWords asciiIsLetterOrNumber asciiIsSpace (fromLatin1 "   ")
     = (0, 0, 0).
Proof.
  destruct (countWords_trimmed asciiIsLetterOrNumber asciiIsSpace
              (fromLatin1 "  It jumps. ") asciiIsSpace_not_letter)
    as [H _].
  destruct (countWords_trimmed asciiIsLetterOrNumber asciiIsSpace
              (fromLatin1 "   ") asciiIsSpace_not_letter)
    as [_ [H0 _]].
  split; [exact H | apply H0; reflexivity].
Defined.

Lemma countSentences_trimmed_padded :
  countSentences asciiIsSpace wholeTextFinder
    (trimmed asciiIsSpace (fromLatin1 "  It jumps. "))
  = countSentences asciiIsSpace wholeTextFinder (fromLatin1 "  It jumps. ")
  /\ countSentences asciiIsSpace wholeTextFinder (fromLatin1 "   ") = Some 0.
Proof.
  destruct (countSentences_trimmed asciiIsSpace wholeTextFinder
              (fromLatin1 "  It jumps. ")) as [_ [H _]].
  destruct (countSentences_trimmed asciiIsSpace wholeTextFinder
              (fromLatin1 "   ")) as [_ [_ [_ H0]]].
  split; [exact H | apply H0; reflexivity].
Defined.

Lemma countSentences_at_most_characters_hello :
  exists n,
    countSentences asciiIsSpace (fun _ => [13; 25; -1])
      (fromLatin1 "Hello world. How are you?") = Some n
    /\ 0 <= n <= 25
    /\ 25 <= 25.
Proof.
  apply (countSentences_at_most_characters asciiIsSpace
           (fun _ => [13; 25; -1]) (fromLatin1 "Hello world. How are you?")).
  reflexivity.
Defined.

Lemma onTextChanged_reads_texts_only_example :
  exists d' out,
    onTextChanged asciiIsLetterOrNumber asciiIsSpace wholeTextFinder 0 0 0
      exampleState = Some (tt, d', out)
    /\ onTextChanged asciiIsLetterOrNumber asciiIsSpace wholeTextFinder 4 0 1
         visitedState = Some (tt, d', out).
Proof.
  apply (onTextChanged_reads_texts_only asciiIsLetterOrNumber asciiIsSpace
           wholeTextFinder 0 0 0 4 0 1 exampleState visitedState);
    [reflexivity | reflexivity | repeat constructor].
Defined.

Lemma onTextChanged_idempotent_example :
  exists d' out,
    onTextChanged asciiIsLetterOrNumber asciiIsSpace wholeTextFinder 0 0 0
      exampleState = Some (tt, d', out)
    /\ onTextChanged asciiIsLetterOrNumber asciiIsSpace wholeTextFinder 0 0 0
         d' = Some (tt, d', out).
Proof.
  apply (onTextChanged_idempotent asciiIsLetterOrNumber asciiIsSpace
           wholeTextFinder 0 0 0 0 0 0 exampleState).
  repeat constructor.
Defined.

Lemma onTextDeselected_republishes_example :
  exists d' out,
    onTextChanged asciiIsLetterOrNumber asciiIsSpace wholeTextFinder 0 0 0
      exampleState = Some (tt, d', out)
    /\ onTextDeselected d' = Some (tt, d', out).
Proof.
  destruct (onTextDeselected_republishes asciiIsLetterOrNumber asciiIsSpace
              wholeTextFinder 0 0 0 exampleState)
    as (d' & out & Hrun & Hdeselected & _).
  { repeat constructor. }
  now exists d', out.
Defined.

Lemma onTextChanged_counters_in_range_example :
  exists d' out,
    onTextChanged asciiIsLetterOrNumber asciiIsSpace wholeTextFinder 0 0 0
      exampleState = Some (tt, d', out)
    /\ 0 <= Stats.lixLongWordCount d' <= Stats.wordCount d'
    /\ Stats.wordCount d' <= Stats.wordCharacterCount d'.
Proof.
  destruct (onTextChanged_counters_in_range asciiIsLetterOrNumber asciiIsSpace
              wholeTextFinder 0 0 0 exampleState)
    as (d' & out & Hrun & Hlong & Hwords & _).
  { repeat constructor. }
  now exists d', out.
Defined.

Lemma onTextChanged_no_paragraph_no_word_example :
  exists d' out,
    onTextChanged asciiIsLetterOrNumber asciiIsSpace wholeTextFinder 0 0 0
      blankState = Some (tt, d', out)
    /\ DocumentStatistics.paragraphCount d' = 0
    /\ DocumentStatistics.wordCount d' = 0.
Proof.
  destruct (onTextChanged_no_paragraph_no_word asciiIsLetterOrNumber
              asciiIsSpace wholeTextFinder 0 0 0 blankState
              asciiIsSpace_not_letter)
    as (d' & out & Hrun & Hzero).
  { repeat constructor. }
  assert (DocumentStatistics.paragraphCount d' = 0) as Hp.
  { vm_compute in Hrun. now injection Hrun as <- _. }
  exists d', out. split; [exact Hrun | split; [exact Hp | apply Hzero, Hp]].
Defined.

Lemma onCleared_agrees_with_recompute_example :
  exists d0 d' out,
    onCleared blankState = Some (tt, d0, out)
    /\ onTextChanged asciiIsLetterOrNumber asciiIsSpace wholeTextFinder 0 0 0
         blankState = Some (tt, d', out)
    /\ publishedWordCount out = [0].
Proof.
  destruct (onCleared_agrees_with_recompute asciiIsLetterOrNumber asciiIsSpace
              wholeTextFinder 0 0 0 blankState asciiIsSpace_not_letter)
    as (d0 & d' & out & Hcleared & Hrun & _ & Hout).
  { repeat constructor. }
  { repeat constructor. }
  exists d0, d', out. split; [exact Hcleared | split; [exact Hrun|]].
  rewrite Hout. reflexivity.
Defined.

Lemma onTextSelected_whole_document_example :
  exists d' out out',
    onTextChanged asciiIsLetterOrNumber asciiIsSpace wholeTextFinder 0 0 0
      exampleState = Some (tt, d', out)
    /\ onTextSelected asciiIsLetterOrNumber asciiIsSpace wholeTextFinder
         (fromLatin1 "The quick brown fox.") 0
         (Document.characterCount (Stats.document d') - 1) d'
       = Some (tt, d', out')
    /\ publishedParagraphCount out' = publishedParagraphCount out.
Proof.
  destruct (onTextSelected_whole_document asciiIsLetterOrNumber asciiIsSpace
              wholeTextFinder 0 0 0 (fromLatin1 "The quick brown fox.")
              exampleState)
    as (d' & out & out' & Hrun & Hselected & Hsame & _).
  { repeat constructor. }
  { discriminate. }
  { reflexivity. }
  now exists d', out, out'.
Defined.


Lemma accessors_agree_with_signals_example :
  exists d' out,
    onTextChanged asciiIsLetterOrNumber asciiIsSpace wholeTextFinder 0 0 0
      exampleState = Some (tt, d', out)
    /\ publishesAccessors d' out
    /\ publishedTotalWordCount out = publishedWordCount out.
Proof.
  destruct (accessors_agree_with_signals asciiIsLetterOrNumber asciiIsSpace
              wholeTextFinder 0 0 0 exampleState) as (_ & _ & H).
  apply H. repeat constructor.
Defined.

Lemma onTextSelected_never_publishes_total_example :
  exists out,
    onTextSelected asciiIsLetterOrNumber asciiIsSpace wholeTextFinder
      (fromLatin1 "quick") 4 9 visitedState = Some (tt, visitedState, out)
    /\ length out = 9%nat
    /\ publishedTotalWordCount out = [].
Proof.
  exists [wordCountChanged 1; characterCountChanged 5; sentenceCountChanged 1;
          paragraphCountChanged 1; pageCountChanged 0; complexWordsChanged 0;
          readingTimeChanged 0; lixReadingEaseChanged 1;
          readabilityIndexChanged 0].
  assert (onTextSelected asciiIsLetterOrNumber asciiIsSpace wholeTextFinder
            (fromLatin1 "quick") 4 9 visitedState
          = Some (tt, visitedState,
                  [wordCountChanged 1; characterCountChanged 5;
                   sentenceCountChanged 1; paragraphCountChanged 1;
                   pageCountChanged 0; complexWordsChanged 0;
                   readingTimeChanged 0; lixReadingEaseChanged 1;
                   readabilityIndexChanged 0])) as Hrun
    by (vm_compute; reflexivity).
  destruct (onTextSelected_never_publishes_total asciiIsLetterOrNumber
              asciiIsSpace wholeTextFinder _ _ _ _ _ _ Hrun)
    as (Hlength & Hnone & _).
  split; [exact Hrun | split; [exact Hlength | exact Hnone]].
Defined.

Lemma countSentences_one_boundary_single_character :
  countSentences asciiIsSpace wholeTextFinder (fromLatin1 " a ") = Some 1.
Proof.
  apply (countSentences_one_boundary asciiIsSpace wholeTextFinder
           (fromLatin1 " a ") 1 (-1) []);
    [reflexivity | reflexivity | lia | lia].
Defined.
